(** * chubaofs: data-node bookkeeping (package master) and the blob client
      (package sdk/data/blob), embedded in Rocq.

    Go values are modelled as the code has them: unsigned and signed machine
    integers as [Z] with their wrap-around written out, [float64] as the
    kernel's binary64 floats, [[]byte] as a backing array with a length,
    [error] as an inductive type whose [None] is Go's [nil], pointers that
    may be [nil] as [option].  A method that mutates its receiver returns
    the new receiver; locks are left out (each method body runs under the
    node's own lock, so the bodies are sequential). *)

From Stdlib Require Import ZArith List String Ascii Bool Lia.
From Stdlib Require Import Floats.
From Stdlib.Strings Require Import Byte.
From Stdlib Require Import Decimal DecimalString DecimalZ DecimalN DecimalPos.
Import ListNotations.

Local Open Scope Z_scope.

(** ** Go's machine integers *)

Definition wrap_uint64 (z : Z) : Z := z mod 2 ^ 64.

Definition maxDuration : Z := 2 ^ 63 - 1.
Definition minDuration : Z := - 2 ^ 63.

(** ** Go's float64 *)

(** [float64(u)] for an unsigned integer [u]: the nearest binary64, ties to
    even. *)
Definition float64_of_uint64 (u : Z) : float :=
  SF2Prim (binary_normalize prec emax u 0 false).

(** ** Go's time.Time and time.Duration

    An instant is a count of nanoseconds on one clock; a [Duration] is an
    int64 count of nanoseconds, and [Time.Sub] saturates at its bounds. *)

Definition Time := Z.
Definition Duration := Z.

Definition time_Second : Duration := 1000000000.

Definition time_Sub (t u : Time) : Duration :=
  Z.max minDuration (Z.min maxDuration (t - u)).

(** [time.Since(t)] with the clock reading [now]. *)
Definition time_Since (now t : Time) : Duration := time_Sub now t.

(** * Package master: DataNode *)

Module Master.

(** proto.PartitionReport, as the heartbeat response carries it. *)
Record PartitionReport := {
  PartitionID : Z;
  DiskPath : string
}.

(** proto.DataNodeHeartBeatResponse: the fields [updateNodeMetric] reads. *)
Record DataNodeHeartBeatResponse := {
  resp_Total : Z;
  resp_Used : Z;
  resp_Available : Z;
  resp_RackName : string;
  resp_CreatedPartitionCnt : Z;
  resp_PartitionReports : list PartitionReport
}.

(** Modelled from the spec: the [AdminTaskSender] a node owns is an external
    collaborator; only what [newAdminTaskSender] is given is kept. *)
Record AdminTaskSender := {
  targetAddr : string;
  clusterID : string
}.

Definition newAdminTaskSender (addr cluster : string) : AdminTaskSender :=
  {| targetAddr := addr; clusterID := cluster |}.

Record DataNode := {
  Total : Z;                       (* uint64 *)
  Used : Z;                        (* uint64 *)
  Available : Z;                   (* uint64 *)
  ID : Z;                          (* uint64 *)
  RackName : string;
  Addr : string;
  ReportTime : Time;
  isActive : bool;
  Ratio : float;
  SelectCount : Z;                 (* uint64 *)
  Carry : float;
  Sender : option AdminTaskSender; (* pointer *)
  dataPartitionReports : list PartitionReport;
  DataPartitionCount : Z;          (* uint32 *)
  NodeSetID : Z                    (* uint64 *)
}.

(** The zero [time.Time] (January 1, year 1), in nanoseconds before the Unix
    epoch. *)
Definition zeroTime : Time := - 62135596800 * 1000000000.

(** [newDataNode]; [r] is the value [rand.Float64()] returns. *)
Definition newDataNode (r : float) (addr cluster : string) : DataNode :=
  {| Total := 1; Used := 0; Available := 0; ID := 0;
     RackName := EmptyString; Addr := addr;
     ReportTime := zeroTime; isActive := false;
     Ratio := PrimFloat.zero; SelectCount := 0; Carry := r;
     Sender := Some (newAdminTaskSender addr cluster);
     dataPartitionReports := []; DataPartitionCount := 0; NodeSetID := 0 |}.

Definition set_isActive (b : bool) (n : DataNode) : DataNode :=
  {| Total := Total n; Used := Used n; Available := Available n; ID := ID n;
     RackName := RackName n; Addr := Addr n;
     ReportTime := ReportTime n; isActive := b;
     Ratio := Ratio n; SelectCount := SelectCount n; Carry := Carry n;
     Sender := Sender n;
     dataPartitionReports := dataPartitionReports n;
     DataPartitionCount := DataPartitionCount n; NodeSetID := NodeSetID n |}.

Section Constants.

(** Constants of the repository that the file uses and does not declare. *)
Variable defaultNodeTimeOutSec : Z.
Variable DefaultDataPartitionSize : Z.

Definition nodeTimeOut : Duration := time_Second * defaultNodeTimeOutSec.

Definition checkLiveness (now : Time) (n : DataNode) : DataNode :=
  if nodeTimeOut <? time_Since now (ReportTime n)
  then set_isActive false n
  else n.

Definition badPartitionIDs (disk : string) (n : DataNode) : list Z :=
  map PartitionID
      (filter (fun r => String.eqb (DiskPath r) disk) (dataPartitionReports n)).

Definition updateNodeMetric (resp : DataNodeHeartBeatResponse) (now : Time)
    (n : DataNode) : DataNode :=
  {| Total := resp_Total resp;
     Used := resp_Used resp;
     Available := resp_Available resp;
     ID := ID n;
     RackName := resp_RackName resp;
     Addr := Addr n;
     ReportTime := now;
     isActive := true;
     Ratio := if resp_Total resp =? 0 then PrimFloat.zero
              else PrimFloat.div (float64_of_uint64 (resp_Used resp))
                                 (float64_of_uint64 (resp_Total resp));
     SelectCount := SelectCount n;
     Carry := Carry n;
     Sender := Sender n;
     dataPartitionReports := resp_PartitionReports resp;
     DataPartitionCount := resp_CreatedPartitionCnt resp;
     NodeSetID := NodeSetID n |}.

Definition isWriteAble (n : DataNode) : bool :=
  isActive n && (DefaultDataPartitionSize <? Available n).

Definition isAvailCarryNode (n : DataNode) : bool :=
  PrimFloat.leb PrimFloat.one (Carry n).

Definition SetCarry (carry : float) (n : DataNode) : DataNode :=
  {| Total := Total n; Used := Used n; Available := Available n; ID := ID n;
     RackName := RackName n; Addr := Addr n;
     ReportTime := ReportTime n; isActive := isActive n;
     Ratio := Ratio n; SelectCount := SelectCount n; Carry := carry;
     Sender := Sender n;
     dataPartitionReports := dataPartitionReports n;
     DataPartitionCount := DataPartitionCount n; NodeSetID := NodeSetID n |}.

Definition SelectNodeForWrite (n : DataNode) : DataNode :=
  {| Total := Total n; Used := Used n; Available := Available n; ID := ID n;
     RackName := RackName n; Addr := Addr n;
     ReportTime := ReportTime n; isActive := isActive n;
     Ratio := PrimFloat.div (float64_of_uint64 (Used n))
                            (float64_of_uint64 (Total n));
     SelectCount := wrap_uint64 (SelectCount n + 1);
     Carry := PrimFloat.sub (Carry n) PrimFloat.one;
     Sender := Sender n;
     dataPartitionReports := dataPartitionReports n;
     DataPartitionCount := DataPartitionCount n; NodeSetID := NodeSetID n |}.

(** The methods of the file that write a field of their receiver.  The
    others ([badPartitionIDs], [isWriteAble], [isAvailCarryNode], [clean],
    [createHeartbeatTask], [toJSON]) only read it. *)
Inductive mutator :=
| Call_checkLiveness (now : Time)
| Call_updateNodeMetric (resp : DataNodeHeartBeatResponse) (now : Time)
| Call_SetCarry (carry : float)
| Call_SelectNodeForWrite.

Definition call (m : mutator) (n : DataNode) : DataNode :=
  match m with
  | Call_checkLiveness now => checkLiveness now n
  | Call_updateNodeMetric resp now => updateNodeMetric resp now n
  | Call_SetCarry carry => SetCarry carry n
  | Call_SelectNodeForWrite => SelectNodeForWrite n
  end.

End Constants.

End Master.

(** * Go values shared by the blob client *)

(** ** Panics

    A Go expression either yields a value or panics (an index or a slice
    bound out of range, a nil pointer dereferenced). *)

Inductive outcome (A : Type) : Type :=
| Val (a : A)
| Panic.

Arguments Val {A} a.
Arguments Panic {A}.

Definition obind {A B : Type} (o : outcome A) (k : A -> outcome B) : outcome B :=
  match o with
  | Val a => k a
  | Panic => Panic
  end.

(** ** []byte

    A slice is a window on a backing array: [backing] is the array from the
    slice's first element to its capacity, [len] the slice's length.  The
    slice expression [s[:n]] is defined up to the capacity, and panics
    beyond it. *)

Record bytes := {
  backing : list byte;
  len : nat
}.

Definition cap (s : bytes) : nat := List.length (backing s).

Definition contents (s : bytes) : list byte := firstn (len s) (backing s).

Definition nil_bytes : bytes := {| backing := []; len := 0 |}.

(** [make([]byte, n)] filled with [bs], and the conversion [[]byte(str)]. *)
Definition bytes_of_list (bs : list byte) : bytes :=
  {| backing := bs; len := List.length bs |}.

(** [s[:n]] for an unsigned [n]. *)
Definition slice_to (s : bytes) (n : Z) : outcome bytes :=
  if (0 <=? n) && (n <=? Z.of_nat (cap s))
  then Val {| backing := backing s; len := Z.to_nat n |}
  else Panic.

(** ** hash/crc32: the IEEE polynomial, bit by bit (reflected form). *)

Definition crc32_poly : Z := 0xEDB88320.

Definition crc32_shift (c : Z) : Z :=
  if Z.testbit c 0
  then Z.lxor (Z.shiftr c 1) crc32_poly
  else Z.shiftr c 1.

Definition crc32_byte (c : Z) (b : byte) : Z :=
  Nat.iter 8 crc32_shift (Z.lxor c (Z.of_N (Byte.to_N b))).

Definition crc32_ChecksumIEEE (bs : list byte) : Z :=
  Z.lxor (fold_left crc32_byte bs 0xFFFFFFFF) 0xFFFFFFFF.

(** ** strings.Compare *)

Definition strings_Compare (a b : string) : Z :=
  match String.compare a b with
  | Eq => 0
  | Lt => -1
  | Gt => 1
  end.

(** ** error

    [None] is the nil error. *)

Inductive errno := ENOMEM | EIO | EINVAL.

(** An operand of a formatting verb. *)
Inductive fmt_arg :=
| A_string (s : string)
| A_bytes (bs : list byte)
| A_uint (z : Z).

Inductive error :=
| Errno (e : errno)                                          (* syscall.Errno *)
| Errorf (format : string) (args : list fmt_arg)             (* fmt.Errorf *)
| Annotatef (cause : error) (format : string) (args : list fmt_arg)
                                                             (* errors.Annotatef *)
| Foreign (code : nat).              (* an error made by a collaborator *)

(** The errors an error wraps, itself included. *)
Fixpoint causes (e : error) : list error :=
  match e with
  | Annotatef cause _ _ => e :: causes cause
  | _ => [e]
  end.

Definition is_nil {A : Type} (o : option A) : bool :=
  match o with
  | None => true
  | Some _ => false
  end.

(** * Package proto: the wire packet *)

Module Proto.

Record Packet := {
  Opcode : Z;        (* uint8 *)
  ReqID : Z;         (* int64 *)
  PartitionID : Z;   (* uint32 *)
  Crc : Z;           (* uint32 *)
  Size : Z;          (* uint32 *)
  Data : bytes
}.

End Proto.

(** * Package wrapper: a data partition as the locator hands it out *)

Module Wrapper.

Record DataPartition := {
  PartitionID : Z;   (* uint32 *)
  Hosts : list string
}.

End Wrapper.

(** * Package sdk/data/blob: the blob client *)

Module Blob.

Definition MaxRetryCnt : nat := 100.

(** A [*net.TCPConn] that is not nil. *)
Definition Conn := nat.

Record BlobClient := {
  cluster : string;
  volname : string
  (* [conns] and [wraper] point at the pool and the locator, whose state is
     the world's *)
}.

(** What [ParseKey] returns besides its error. *)
Record KeyFields := {
  key_cluster : string;
  key_volname : string;
  key_partitionID : Z;
  key_fileID : Z;
  key_objID : Z;
  key_size : Z
}.

(** Every call the client makes on the pool, the locator and the transport,
    with what was passed and what came back. *)
Inductive event :=
| EvNewDataPartitionWrapper (volname masters : string) (err : option error)
| EvGetWriteDataPartition (exclude : list Z)
    (dp : option Wrapper.DataPartition) (err : option error)
| EvGetDataPartition (partitionID : Z)
    (dp : option Wrapper.DataPartition) (err : option error)
| EvGet (host : string) (conn : option Conn) (err : option error)
| EvPut (conn : option Conn) (forceClose : bool)
| EvCheckErrorForPutConnect (conn : option Conn) (host : string) (err : error)
| EvWriteToConn (request : Proto.Packet) (conn : option Conn) (err : option error)
| EvReadFromConn (conn : option Conn) (reply : Proto.Packet) (err : option error).

(** The code of the repository that blob.go calls and does not define, and
    the collaborators behind it, over a world [W] they may read and change:
    the packet constructors and accessors of packages blob and proto, the
    key codec, the partition locator (package wrapper), the connection pool
    (package pool) and the transport.  [NewBlobWritePacket] may panic: it is
    the one constructor that is handed a nil partition. *)
Record Env (W : Type) := {
  OpOk : Z;
  GetUniqueLogId : Proto.Packet -> string;
  ParsePacket : Proto.Packet -> Z * Z * Z * Z;
  GenKey : string -> string -> Z -> Z -> Z -> Z -> string;
  ParseKey : string -> KeyFields * option error;
  NewBlobWritePacket :
    option Wrapper.DataPartition -> bytes -> W -> W * outcome Proto.Packet;
  NewBlobReadPacket : Z -> Z -> Z -> Z -> W -> W * Proto.Packet;
  NewBlobDeletePacket : Wrapper.DataPartition -> Z -> Z -> W -> W * Proto.Packet;
  NewDataPartitionWrapper : string -> string -> W -> W * option error;
  GetWriteDataPartition :
    list Z -> W -> W * (option Wrapper.DataPartition * option error);
  GetDataPartition : Z -> W -> W * (option Wrapper.DataPartition * option error);
  conns_Get : string -> W -> W * (option Conn * option error);
  conns_Put : option Conn -> bool -> W -> W;
  conns_CheckErrorForPutConnect : option Conn -> string -> error -> W -> W;
  WriteToConn : Proto.Packet -> option Conn -> W -> W * option error;
  ReadFromConn : option Conn -> W -> W * (Proto.Packet * option error)
}.

Arguments OpOk {W} _.
Arguments GetUniqueLogId {W} _ _.
Arguments ParsePacket {W} _ _.
Arguments GenKey {W} _ _ _ _ _ _ _.
Arguments ParseKey {W} _ _.
Arguments NewBlobWritePacket {W} _ _ _ _.
Arguments NewBlobReadPacket {W} _ _ _ _ _ _.
Arguments NewBlobDeletePacket {W} _ _ _ _ _.
Arguments NewDataPartitionWrapper {W} _ _ _ _.
Arguments GetWriteDataPartition {W} _ _ _.
Arguments GetDataPartition {W} _ _ _.
Arguments conns_Get {W} _ _ _.
Arguments conns_Put {W} _ _ _ _.
Arguments conns_CheckErrorForPutConnect {W} _ _ _ _ _.
Arguments WriteToConn {W} _ _ _ _.
Arguments ReadFromConn {W} _ _ _.

(** How a loop body ends: the function returns, or the loop goes on with
    the variables the body has updated. *)
Inductive flow (R S : Type) : Type :=
| Return (r : R)
| Continue (s : S).

Arguments Return {R S} r.
Arguments Continue {R S} s.

Section Client.

Context {W : Type}.
Variable env : Env W.

(** A computation logs the calls it makes, changes the world and yields a
    value or panics. *)
Definition M (A : Type) : Type := W -> list event * W * outcome A.

Definition ret {A : Type} (a : A) : M A := fun w => ([], w, Val a).

Definition bind {A B : Type} (m : M A) (k : A -> M B) : M B :=
  fun w =>
    match m w with
    | (t, w1, Val a) =>
        match k a w1 with
        | (t', w2, b) => (t ++ t', w2, b)
        end
    | (t, w1, Panic) => (t, w1, Panic)
    end.

Definition lift {A : Type} (o : outcome A) : M A := fun w => ([], w, o).

Notation "x <- m ;; k" := (bind m (fun x => k))
  (at level 61, m at next level, right associativity).
Notation "m ;; k" := (bind m (fun _ => k))
  (at level 61, right associativity).

(** [*p] for a pointer [p], and [l[0]]. *)
Definition deref {A : Type} (p : option A) : M A :=
  match p with
  | Some a => ret a
  | None => lift Panic
  end.

Definition index0 {A : Type} (l : list A) : M A :=
  match l with
  | a :: _ => ret a
  | [] => lift Panic
  end.

Definition call_NewDataPartitionWrapper (vol masters : string) : M (option error) :=
  fun w => let '(w1, err) := NewDataPartitionWrapper env vol masters w in
           ([EvNewDataPartitionWrapper vol masters err], w1, Val err).

Definition call_GetWriteDataPartition (exclude : list Z)
    : M (option Wrapper.DataPartition * option error) :=
  fun w => let '(w1, (dp, err)) := GetWriteDataPartition env exclude w in
           ([EvGetWriteDataPartition exclude dp err], w1, Val (dp, err)).

Definition call_GetDataPartition (partitionID : Z)
    : M (option Wrapper.DataPartition * option error) :=
  fun w => let '(w1, (dp, err)) := GetDataPartition env partitionID w in
           ([EvGetDataPartition partitionID dp err], w1, Val (dp, err)).

Definition call_Get (host : string) : M (option Conn * option error) :=
  fun w => let '(w1, (conn, err)) := conns_Get env host w in
           ([EvGet host conn err], w1, Val (conn, err)).

Definition call_Put (conn : option Conn) (forceClose : bool) : M unit :=
  fun w => ([EvPut conn forceClose], conns_Put env conn forceClose w, Val tt).

Definition call_CheckErrorForPutConnect (conn : option Conn) (host : string)
    (err : error) : M unit :=
  fun w => ([EvCheckErrorForPutConnect conn host err],
            conns_CheckErrorForPutConnect env conn host err w, Val tt).

Definition call_WriteToConn (request : Proto.Packet) (conn : option Conn)
    : M (option error) :=
  fun w => let '(w1, err) := WriteToConn env request conn w in
           ([EvWriteToConn request conn err], w1, Val err).

Definition call_ReadFromConn (conn : option Conn)
    : M (Proto.Packet * option error) :=
  fun w => let '(w1, (reply, err)) := ReadFromConn env conn w in
           ([EvReadFromConn conn reply err], w1, Val (reply, err)).

Definition call_NewBlobWritePacket (dp : option Wrapper.DataPartition)
    (data : bytes) : M Proto.Packet :=
  fun w => let '(w1, p) := NewBlobWritePacket env dp data w in ([], w1, p).

Definition call_NewBlobReadPacket (partitionID fileID objID size : Z)
    : M Proto.Packet :=
  fun w => let '(w1, p) := NewBlobReadPacket env partitionID fileID objID size w in
           ([], w1, Val p).

Definition call_NewBlobDeletePacket (dp : Wrapper.DataPartition)
    (fileID objID : Z) : M Proto.Packet :=
  fun w => let '(w1, p) := NewBlobDeletePacket env dp fileID objID w in
           ([], w1, Val p).

Definition NewBlobClient (vol masters : string)
    : M (option BlobClient * option error) :=
  let client := {| cluster := EmptyString; volname := vol |} in
  err <- call_NewDataPartitionWrapper vol masters ;;
  match err with
  | Some e => ret (None, Some e)
  | None => ret (Some client, None)
  end.

Definition checkWriteResponse (request reply : Proto.Packet)
    : outcome (option error) :=
  if negb (Proto.Opcode reply =? OpOk env) then
    obind (slice_to (Proto.Data reply) (Proto.Size reply)) (fun msg =>
    Val (Some (Errorf "WriteRequest(%v) reply(%v) replyOp Err msg(%v)"
                 [A_string (GetUniqueLogId env request);
                  A_string (GetUniqueLogId env reply);
                  A_bytes (contents msg)])))
  else if negb (Proto.ReqID request =? Proto.ReqID reply) then
    Val (Some (Errorf "WriteRequest(%v) reply(%v) REQID not equare"
                 [A_string (GetUniqueLogId env request);
                  A_string (GetUniqueLogId env reply)]))
  else if negb (Proto.PartitionID request =? Proto.PartitionID reply) then
    Val (Some (Errorf "WriteRequest(%v) reply(%v) PartitionID not equare"
                 [A_string (GetUniqueLogId env request);
                  A_string (GetUniqueLogId env reply)]))
  else
    obind (slice_to (Proto.Data request) (Proto.Size request)) (fun payload =>
    let requestCrc := crc32_ChecksumIEEE (contents payload) in
    if negb (requestCrc =? Proto.Crc reply) then
      Val (Some (Errorf
                   "WriteRequest(%v) reply(%v) CRC not equare,request(%v) reply(%v)"
                   [A_string (GetUniqueLogId env request);
                    A_string (GetUniqueLogId env reply);
                    A_uint requestCrc; A_uint (Proto.Crc reply)]))
    else Val None).

Definition checkReadResponse (request reply : Proto.Packet)
    : outcome (option error) :=
  if negb (Proto.Opcode reply =? OpOk env) then
    obind (slice_to (Proto.Data reply) (Proto.Size reply)) (fun msg =>
    Val (Some (Errorf "ReadRequest(%v) reply(%v) replyOp Err msg(%v)"
                 [A_string (GetUniqueLogId env request);
                  A_string (GetUniqueLogId env reply);
                  A_bytes (contents msg)])))
  else if negb (Proto.ReqID request =? Proto.ReqID reply) then
    Val (Some (Errorf "ReadRequest(%v) reply(%v) REQID not equare"
                 [A_string (GetUniqueLogId env request);
                  A_string (GetUniqueLogId env reply)]))
  else if negb (Proto.PartitionID request =? Proto.PartitionID reply) then
    Val (Some (Errorf "ReadRequest(%v) reply(%v) PartitionID not equare"
                 [A_string (GetUniqueLogId env request);
                  A_string (GetUniqueLogId env reply)]))
  else
    obind (slice_to (Proto.Data reply) (Proto.Size reply)) (fun payload =>
    let replyCrc := crc32_ChecksumIEEE (contents payload) in
    if negb (replyCrc =? Proto.Crc reply) then
      Val (Some (Errorf
                   "ReadRequest(%v) reply(%v) CRC not equare,request(%v) reply(%v)"
                   [A_string (GetUniqueLogId env request);
                    A_string (GetUniqueLogId env reply);
                    A_uint (Proto.Crc request); A_uint replyCrc]))
    else Val None).

(** One turn of the loop of [Write]: the key and the error to return, or
    the exclusion list for the next turn. *)
Definition Write_body (client : BlobClient) (request : Proto.Packet)
    (exclude : list Z) : M (flow (string * option error) (list Z)) :=
  r <- call_GetWriteDataPartition exclude ;;
  let '(dp, err) := r in
  if negb (is_nil err) then ret (Return (EmptyString, Some (Errno ENOMEM)))
  else
    dp <- deref dp ;;
    host <- index0 (Wrapper.Hosts dp) ;;
    r <- call_Get host ;;
    let '(conn, err) := r in
    match err with
    | Some _ => ret (Continue (exclude ++ [Wrapper.PartitionID dp]))
    | None =>
      err <- call_WriteToConn request conn ;;
      match err with
      | Some e =>
        call_CheckErrorForPutConnect conn host e ;;
        ret (Continue (exclude ++ [Wrapper.PartitionID dp]))
      | None =>
        r <- call_ReadFromConn conn ;;
        let '(reply, err) := r in
        match err with
        | Some _ =>
          call_Put conn true ;;
          ret (Continue (exclude ++ [Wrapper.PartitionID dp]))
        | None =>
          err <- lift (checkWriteResponse request reply) ;;
          match err with
          | Some _ =>
            call_Put conn true ;;
            ret (Continue (exclude ++ [Wrapper.PartitionID dp]))
          | None =>
            let '(partitionID, fileID, objID, size) := ParsePacket env reply in
            call_Put conn false ;;
            ret (Return (GenKey env (cluster client) (volname client)
                           partitionID fileID objID size, None))
          end
        end
      end
    end.

(** [for i := 0; i < MaxRetryCnt; i++], with [n] turns left. *)
Fixpoint Write_loop (n : nat) (client : BlobClient) (request : Proto.Packet)
    (exclude : list Z) : M (string * option error) :=
  match n with
  | O => ret (EmptyString, Some (Errno EIO))
  | S n' =>
    f <- Write_body client request exclude ;;
    match f with
    | Return r => ret r
    | Continue exclude' => Write_loop n' client request exclude'
    end
  end.

(** [dp] is still nil when the request is built. *)
Definition Write (client : BlobClient) (data : bytes) : M (string * option error) :=
  request <- call_NewBlobWritePacket None data ;;
  Write_loop MaxRetryCnt client request [].

(** One turn of the loop of [Read] for the host [target]: the payload to
    return, or the value the turn leaves in [err]. *)
Definition Read_body (request : Proto.Packet) (target : string)
    : M (flow (bytes * option error) (option error)) :=
  r <- call_Get target ;;
  let '(conn, err) := r in
  match err with
  | Some e =>
    let err := Annotatef e "ReadRequest(%v) Get connect from host(%)-"
                 [A_string (GetUniqueLogId env request); A_string target] in
    call_Put conn true ;;
    ret (Continue (Some err))
  | None =>
    err <- call_WriteToConn request conn ;;
    match err with
    | Some e =>
      call_CheckErrorForPutConnect conn target e ;;
      ret (Continue (Some (Annotatef e "ReadRequest(%v) Write To host(%)-"
                             [A_string (GetUniqueLogId env request);
                              A_string target])))
    | None =>
      r <- call_ReadFromConn conn ;;
      let '(reply, err) := r in
      match err with
      | Some e =>
        call_Put conn true ;;
        ret (Continue (Some (Annotatef e
                               "ReadRequest(%v) ReadFrom host(%) err(%v)"
                               [A_string (GetUniqueLogId env request);
                                A_string target])))
      | None =>
        err <- lift (checkReadResponse request reply) ;;
        match err with
        | Some e =>
          call_Put conn true ;;
          ret (Continue (Some (Annotatef e "ReadRequest CheckReadResponse"
                                 [A_string (GetUniqueLogId env request);
                                  A_string target])))
        | None =>
          call_Put conn false ;;
          ret (Return (Proto.Data reply, None))
        end
      end
    end
  end.

(** [for _, target := range dp.Hosts]; [err] is the variable the turns
    assign and the final [return nil, syscall.EIO] overwrites. *)
Fixpoint Read_loop (request : Proto.Packet) (hosts : list string)
    (err : option error) : M (bytes * option error) :=
  match hosts with
  | [] => ret (nil_bytes, Some (Errno EIO))
  | target :: rest =>
    f <- Read_body request target ;;
    match f with
    | Return r => ret r
    | Continue err' => Read_loop request rest err'
    end
  end.

Definition Read (client : BlobClient) (key : string) : M (bytes * option error) :=
  let '(k, err) := ParseKey env key in
  if negb (is_nil err)
     || negb (strings_Compare (key_cluster k) (cluster client) =? 0)
     || negb (strings_Compare (key_volname k) (volname client) =? 0)
  then ret (nil_bytes, Some (Errno EINVAL))
  else
    r <- call_GetDataPartition (key_partitionID k) ;;
    let '(dp, err) := r in
    match dp with
    | None => ret (nil_bytes, err)
    | Some dp =>
      request <- call_NewBlobReadPacket (key_partitionID k) (key_fileID k)
                   (key_objID k) (key_size k) ;;
      Read_loop request (Wrapper.Hosts dp) err
    end.

Definition Delete (client : BlobClient) (key : string) : M (option error) :=
  let '(k, err) := ParseKey env key in
  if negb (is_nil err)
     || negb (strings_Compare (key_cluster k) (cluster client) =? 0)
     || negb (strings_Compare (key_volname k) (volname client) =? 0)
  then ret (Some (Errno EINVAL))
  else
    r <- call_GetDataPartition (key_partitionID k) ;;
    let '(dp, err) := r in
    match dp with
    | None => ret err
    | Some dp =>
      request <- call_NewBlobDeletePacket dp (key_fileID k) (key_objID k) ;;
      host <- index0 (Wrapper.Hosts dp) ;;
      r <- call_Get host ;;
      let '(conn, err) := r in
      match err with
      | Some e =>
        let err := Annotatef e "DeleteRequest(%v) Get connect from host(%)-"
                     [A_string key; A_string host] in
        call_Put conn true ;;
        ret (Some err)
      | None =>
        err <- call_WriteToConn request conn ;;
        match err with
        | Some e =>
          call_CheckErrorForPutConnect conn host e ;;
          ret (Some (Annotatef e "DeleteRequest(%v) Write To host(%)-"
                       [A_string key; A_string host]))
        | None =>
          r <- call_ReadFromConn conn ;;
          let '(reply, err) := r in
          match err with
          | Some e =>
            call_Put conn true ;;
            ret (Some (Annotatef e
                         "DeleteRequest(%v) readResponse from host(%)-"
                         [A_string key; A_string host]))
          | None =>
            if negb (Proto.Opcode reply =? OpOk env) then
              msg <- lift (slice_to (Proto.Data reply) (Proto.Size reply)) ;;
              ret (Some (Errorf
                           "DeleteRequest(%v) reply(%v) replyOp Err msg(%v)"
                           [A_string (GetUniqueLogId env request);
                            A_string (GetUniqueLogId env reply);
                            A_bytes (contents msg)]))
            else
              call_Put conn false ;;
              ret None
          end
        end
      end
    end.

End Client.

(** ** Reading a log of calls *)

(** The requests for a write partition: the exclusion list each was given
    and what the locator answered. *)
Definition sched_calls (t : list event)
    : list (list Z * option Wrapper.DataPartition * option error) :=
  flat_map (fun ev => match ev with
                      | EvGetWriteDataPartition ex dp err => [(ex, dp, err)]
                      | _ => []
                      end) t.

(** The ids of the partitions a list of answers holds. *)
Definition chosen_ids
    (l : list (list Z * option Wrapper.DataPartition * option error)) : list Z :=
  flat_map (fun c => match c with
                     | (_, Some dp, _) => [Wrapper.PartitionID dp]
                     | _ => []
                     end) l.

(** The hosts a connection was asked for, in order. *)
Definition dialled (t : list event) : list string :=
  flat_map (fun ev => match ev with
                      | EvGet host _ _ => [host]
                      | _ => []
                      end) t.

(** The requests put on the wire. *)
Definition sent (t : list event) : list Proto.Packet :=
  flat_map (fun ev => match ev with
                      | EvWriteToConn request _ _ => [request]
                      | _ => []
                      end) t.

(** The replies that arrived without a transport error. *)
Definition received (t : list event) : list Proto.Packet :=
  flat_map (fun ev => match ev with
                      | EvReadFromConn _ reply None => [reply]
                      | _ => []
                      end) t.

(** The connections the pool handed out ([Get] without an error). *)
Definition acquired (t : list event) : list (option Conn) :=
  flat_map (fun ev => match ev with
                      | EvGet _ conn None => [conn]
                      | _ => []
                      end) t.

(** The connections given back by [Put], with the tag they were given back
    under ([true]: discard). *)
Definition released (t : list event) : list (option Conn * bool) :=
  flat_map (fun ev => match ev with
                      | EvPut conn forceClose => [(conn, forceClose)]
                      | _ => []
                      end) t.

(** The calls of [CheckErrorForPutConnect]: the connection and the error it
    was handed.  What the pool does with them is not in blob.go, and no
    tag is read into the call. *)
Definition checked (t : list event) : list (option Conn * error) :=
  flat_map (fun ev => match ev with
                      | EvCheckErrorForPutConnect conn _ err => [(conn, err)]
                      | _ => []
                      end) t.

(** The connections passed back to the pool, by [Put] or by
    [CheckErrorForPutConnect], in order. *)
Definition handed_back (t : list event) : list (option Conn) :=
  flat_map (fun ev => match ev with
                      | EvPut conn _ => [conn]
                      | EvCheckErrorForPutConnect conn _ _ => [conn]
                      | _ => []
                      end) t.

(** The sends that failed: the connection and the error of the transport. *)
Definition failed_sends (t : list event) : list (option Conn * error) :=
  flat_map (fun ev => match ev with
                      | EvWriteToConn _ conn (Some e) => [(conn, e)]
                      | _ => []
                      end) t.

End Blob.

(** * The key codec *)

Module KeyCodec.

Import Blob.

Local Open Scope string_scope.

Definition sep : ascii := "/"%char.

Fixpoint has_sep (s : string) : bool :=
  match s with
  | EmptyString => false
  | String c s' => Ascii.eqb c sep || has_sep s'
  end.

(** [strings.Split(s, "/")]. *)
Fixpoint split (s : string) : list string :=
  match s with
  | EmptyString => [EmptyString]
  | String c s' =>
    if Ascii.eqb c sep then EmptyString :: split s'
    else match split s' with
         | h :: t => String c h :: t
         | [] => [String c EmptyString]
         end
  end.

(** An unsigned integer in decimal, as [%v] prints it. *)
Definition print_uint (z : Z) : string :=
  DecimalString.NilZero.string_of_uint (N.to_uint (Z.to_N z)).

(** A decimal numeral below [2 ^ bits]: digits only, at least one. *)
Definition parse_uint (bits : Z) (s : string) : option Z :=
  match DecimalString.NilZero.uint_of_string s with
  | Some d => if (Z.of_uint d <? 2 ^ bits)%Z then Some (Z.of_uint d) else None
  | None => None
  end.

(** Modelled from the spec: [GenKey] is not in the files at hand.  The spec
    leaves the format open; the six fields are joined by a slash, the four
    numbers in decimal. *)
Definition GenKey (clusterName volName : string)
    (partitionID fileID objID size : Z) : string :=
  clusterName ++ "/" ++ volName ++ "/" ++ print_uint partitionID ++ "/"
    ++ print_uint fileID ++ "/" ++ print_uint objID ++ "/" ++ print_uint size.

Definition zeroKeyFields : KeyFields :=
  {| key_cluster := ""; key_volname := ""; key_partitionID := 0;
     key_fileID := 0; key_objID := 0; key_size := 0 |}.

(** Modelled from the spec: [ParseKey] is not in the files at hand.  It
    takes the key apart at the slashes and reads the four numbers; a key of
    another shape yields the invalid-argument error and the zero values. *)
Definition ParseKey (key : string) : KeyFields * option error :=
  match split key with
  | [c; v; p; f; o; z] =>
    match parse_uint 32 p, parse_uint 64 f, parse_uint 64 o, parse_uint 32 z with
    | Some partitionID, Some fileID, Some objID, Some size =>
      ({| key_cluster := c; key_volname := v; key_partitionID := partitionID;
          key_fileID := fileID; key_objID := objID; key_size := size |}, None)
    | _, _, _, _ => (zeroKeyFields, Some (Errno EINVAL))
    end
  | _ => (zeroKeyFields, Some (Errno EINVAL))
  end.

(** The tuples a key is made of: names without a slash, a 32-bit partition
    id and size, 64-bit file and object ids. *)
Definition valid_tuple (clusterName volName : string)
    (partitionID fileID objID size : Z) : Prop :=
  has_sep clusterName = false /\ has_sep volName = false /\
  (0 <= partitionID < 2 ^ 32)%Z /\ (0 <= fileID < 2 ^ 64)%Z /\
  (0 <= objID < 2 ^ 64)%Z /\ (0 <= size < 2 ^ 32)%Z.

(** A numeral: one digit or more, denoting a number below [2 ^ bits]. *)
Definition numeral (bits : Z) (s : string) : Prop :=
  exists d, DecimalString.NilZero.uint_of_string s = Some d /\
            (Z.of_uint d < 2 ^ bits)%Z.

(** A key of the right shape: six fields between five slashes, the last
    four of them numerals of their width. *)
Definition well_formed (key : string) : Prop :=
  exists c v p f o z,
    split key = [c; v; p; f; o; z] /\
    numeral 32 p /\ numeral 64 f /\ numeral 64 o /\ numeral 32 z.

End KeyCodec.

(** * A cluster to run the client against

    A world whose locator holds a list of partitions and whose pool and
    transport answer from scripts, for running the client on concrete
    inputs. *)

Module Sim.

Import Blob.

Local Open Scope string_scope.

Record World := {
  partitions : list Wrapper.DataPartition;
  dials : list (option Conn * option error);      (* answers of [Get] *)
  writes : list (option error);                   (* answers of [WriteToConn] *)
  reads : list (Proto.Packet * option error);     (* answers of [ReadFromConn] *)
  next_req : Z
}.

Definition OpOk : Z := 0xF0.
Definition OpWrite : Z := 0x03.
Definition OpRead : Z := 0x04.
Definition OpDelete : Z := 0x05.

Definition zeroPacket : Proto.Packet :=
  {| Proto.Opcode := 0; Proto.ReqID := 0; Proto.PartitionID := 0;
     Proto.Crc := 0; Proto.Size := 0; Proto.Data := nil_bytes |}.

Definition bump (w : World) : World :=
  {| partitions := partitions w; dials := dials w; writes := writes w;
     reads := reads w; next_req := next_req w + 1 |}.

(** Modelled from the spec: a write request carries the payload and its
    CRC-32.  This constructor takes the partition id of a nil partition to
    be 0. *)
Definition NewBlobWritePacket (dp : option Wrapper.DataPartition) (data : bytes)
    (w : World) : World * outcome Proto.Packet :=
  (bump w,
   Val {| Proto.Opcode := OpWrite; Proto.ReqID := next_req w;
          Proto.PartitionID := match dp with
                               | Some d => Wrapper.PartitionID d
                               | None => 0
                               end;
          Proto.Crc := crc32_ChecksumIEEE (contents data);
          Proto.Size := Z.of_nat (len data); Proto.Data := data |}).

(** The request that constructor makes from the nil partition under the
    request number [req]. *)
Definition nilRequest (data : bytes) (req : Z) : Proto.Packet :=
  {| Proto.Opcode := OpWrite; Proto.ReqID := req; Proto.PartitionID := 0;
     Proto.Crc := crc32_ChecksumIEEE (contents data);
     Proto.Size := Z.of_nat (len data); Proto.Data := data |}.

Definition NewBlobReadPacket (partitionID fileID objID size : Z) (w : World)
    : World * Proto.Packet :=
  (bump w,
   {| Proto.Opcode := OpRead; Proto.ReqID := next_req w;
      Proto.PartitionID := partitionID; Proto.Crc := 0;
      Proto.Size := size; Proto.Data := nil_bytes |}).

Definition NewBlobDeletePacket (dp : Wrapper.DataPartition) (fileID objID : Z)
    (w : World) : World * Proto.Packet :=
  (bump w,
   {| Proto.Opcode := OpDelete; Proto.ReqID := next_req w;
      Proto.PartitionID := Wrapper.PartitionID dp; Proto.Crc := 0;
      Proto.Size := 0; Proto.Data := nil_bytes |}).

(** Modelled from the spec: the scheduler hands out a partition whose id
    is not excluded, or reports that none is left. *)
Definition GetWriteDataPartition (exclude : list Z) (w : World)
    : World * (option Wrapper.DataPartition * option error) :=
  match find (fun dp => negb (existsb (Z.eqb (Wrapper.PartitionID dp)) exclude))
             (partitions w) with
  | Some dp => (w, (Some dp, None))
  | None => (w, (None, Some (Foreign 1)))
  end.

(** Modelled from the spec: the locator resolves a partition by id, or
    reports that it is not found. *)
Definition GetDataPartition (partitionID : Z) (w : World)
    : World * (option Wrapper.DataPartition * option error) :=
  match find (fun dp => (Wrapper.PartitionID dp =? partitionID)%Z) (partitions w) with
  | Some dp => (w, (Some dp, None))
  | None => (w, (None, Some (Foreign 2)))
  end.

Definition conns_Get (host : string) (w : World)
    : World * (option Conn * option error) :=
  match dials w with
  | a :: rest =>
    ({| partitions := partitions w; dials := rest; writes := writes w;
        reads := reads w; next_req := next_req w |}, a)
  | [] => (w, (None, Some (Foreign 3)))
  end.

Definition WriteToConn (request : Proto.Packet) (conn : option Conn) (w : World)
    : World * option error :=
  match writes w with
  | a :: rest =>
    ({| partitions := partitions w; dials := dials w; writes := rest;
        reads := reads w; next_req := next_req w |}, a)
  | [] => (w, Some (Foreign 4))
  end.

Definition ReadFromConn (conn : option Conn) (w : World)
    : World * (Proto.Packet * option error) :=
  match reads w with
  | a :: rest =>
    ({| partitions := partitions w; dials := dials w; writes := writes w;
        reads := rest; next_req := next_req w |}, a)
  | [] => (w, (zeroPacket, Some (Foreign 5)))
  end.

Definition env : Env World :=
  {| Blob.OpOk := OpOk;
     Blob.GetUniqueLogId := fun p => KeyCodec.print_uint (Proto.ReqID p);
     Blob.ParsePacket := fun p => (Proto.PartitionID p, 1, 1, Proto.Size p);
     Blob.GenKey := KeyCodec.GenKey;
     Blob.ParseKey := KeyCodec.ParseKey;
     Blob.NewBlobWritePacket := NewBlobWritePacket;
     Blob.NewBlobReadPacket := NewBlobReadPacket;
     Blob.NewBlobDeletePacket := NewBlobDeletePacket;
     Blob.NewDataPartitionWrapper := fun _ _ w => (w, None);
     Blob.GetWriteDataPartition := GetWriteDataPartition;
     Blob.GetDataPartition := GetDataPartition;
     Blob.conns_Get := conns_Get;
     Blob.conns_Put := fun _ _ w => w;
     Blob.conns_CheckErrorForPutConnect := fun _ _ _ w => w;
     Blob.WriteToConn := WriteToConn;
     Blob.ReadFromConn := ReadFromConn |}.



(** The client [NewBlobClient] makes for the volume ["vol"]. *)
Definition client : BlobClient := {| cluster := ""; volname := "vol" |}.

Definition payload (s : string) : bytes :=
  bytes_of_list (map byte_of_ascii (list_ascii_of_string s)).

End Sim.

(** * Runs on concrete inputs *)

Module Scenario.

Import Blob.

Local Open Scope string_scope.

Definition hi : bytes := Sim.payload "hi".

Definition dp7 : Wrapper.DataPartition :=
  {| Wrapper.PartitionID := 7; Wrapper.Hosts := ["h1"] |}.

Definition dp8 : Wrapper.DataPartition :=
  {| Wrapper.PartitionID := 8; Wrapper.Hosts := ["h2"] |}.

Definition dp7x3 : Wrapper.DataPartition :=
  {| Wrapper.PartitionID := 7; Wrapper.Hosts := ["h1"; "h2"; "h3"] |}.

(** A write request for partition 7 and two replies to it: the second
    reports another checksum than the payload's. *)
Definition writeRequest : Proto.Packet :=
  {| Proto.Opcode := Sim.OpWrite; Proto.ReqID := 1; Proto.PartitionID := 7;
     Proto.Crc := crc32_ChecksumIEEE (contents hi);
     Proto.Size := 2; Proto.Data := hi |}.

Definition ackGood : Proto.Packet :=
  {| Proto.Opcode := Sim.OpOk; Proto.ReqID := 1; Proto.PartitionID := 7;
     Proto.Crc := crc32_ChecksumIEEE (contents hi);
     Proto.Size := 0; Proto.Data := nil_bytes |}.

Definition ackBadCrc : Proto.Packet :=
  {| Proto.Opcode := Sim.OpOk; Proto.ReqID := 1; Proto.PartitionID := 7;
     Proto.Crc := 0; Proto.Size := 0; Proto.Data := nil_bytes |}.

(** The acknowledgement partition [pid] sends for the payload [hi] of the
    request numbered 0. *)
Definition ackFrom (pid : Z) : Proto.Packet :=
  {| Proto.Opcode := Sim.OpOk; Proto.ReqID := 0; Proto.PartitionID := pid;
     Proto.Crc := crc32_ChecksumIEEE (contents hi);
     Proto.Size := 0; Proto.Data := nil_bytes |}.

(** Two partitions, each of which receives the request and acknowledges
    it. *)
Definition twoPartitions : Sim.World :=
  {| Sim.partitions := [dp7; dp8];
     Sim.dials := [(Some 1%nat, None); (Some 2%nat, None)];
     Sim.writes := [None; None];
     Sim.reads := [(ackFrom 7, None); (ackFrom 8, None)];
     Sim.next_req := 0 |}.

(** A hundred partitions, none of whose hosts can be dialled. *)
Definition hundredDown : Sim.World :=
  {| Sim.partitions :=
       map (fun i => {| Wrapper.PartitionID := Z.of_nat i;
                        Wrapper.Hosts := ["h"] |}) (seq 0 100);
     Sim.dials := []; Sim.writes := []; Sim.reads := [];
     Sim.next_req := 0 |}.

(** A read reply for the request numbered 0 on partition 7 that carries
    [hi] and reports the checksum [crc]. *)
Definition readReply (crc : Z) : Proto.Packet :=
  {| Proto.Opcode := Sim.OpOk; Proto.ReqID := 0; Proto.PartitionID := 7;
     Proto.Crc := crc; Proto.Size := 2; Proto.Data := hi |}.

(** Three replicas; the first two report a checksum that is not the one of
    the data they send. *)
Definition twoCorrupt : Sim.World :=
  {| Sim.partitions := [dp7x3];
     Sim.dials := [(Some 1%nat, None); (Some 2%nat, None); (Some 3%nat, None)];
     Sim.writes := [None; None; None];
     Sim.reads := [(readReply 0, None); (readReply 1, None);
                   (readReply (crc32_ChecksumIEEE (contents hi)), None)];
     Sim.next_req := 0 |}.

(** One replica, which cannot be dialled. *)
Definition replicaDown : Sim.World :=
  {| Sim.partitions := [dp7];
     Sim.dials := [(None, Some (Foreign 3))];
     Sim.writes := []; Sim.reads := [];
     Sim.next_req := 0 |}.

(** One replica, which answers a delete with an opcode that is not the
    success one. *)
Definition deleteRefused : Sim.World :=
  {| Sim.partitions := [dp7];
     Sim.dials := [(Some 1%nat, None)];
     Sim.writes := [None];
     Sim.reads := [({| Proto.Opcode := 0xF1; Proto.ReqID := 0;
                       Proto.PartitionID := 7; Proto.Crc := 0;
                       Proto.Size := 0; Proto.Data := nil_bytes |}, None)];
     Sim.next_req := 0 |}.

Definition key7 : string := "/vol/7/1/1/2".
Definition key9 : string := "/vol/9/1/1/2".

End Scenario.

(** * The vocabulary of the statements *)

(** A heartbeat that reports no capacity at all. *)
Definition emptyReport : Master.DataNodeHeartBeatResponse :=
  {| Master.resp_Total := 0; Master.resp_Used := 0;
     Master.resp_Available := 0; Master.resp_RackName := EmptyString;
     Master.resp_CreatedPartitionCnt := 0;
     Master.resp_PartitionReports := [] |}.

(** The node a fresh registration is in after that heartbeat. *)
Definition emptyNode : Master.DataNode :=
  Master.updateNodeMetric emptyReport 0
    (Master.newDataNode PrimFloat.zero EmptyString EmptyString).

(** The errors the pool and the transport reported, in order. *)
Definition transport_errors (t : list Blob.event) : list error :=
  flat_map (fun ev => match ev with
                      | Blob.EvGet _ _ (Some e) => [e]
                      | Blob.EvWriteToConn _ _ (Some e) => [e]
                      | Blob.EvReadFromConn _ _ (Some e) => [e]
                      | _ => []
                      end) t.

(** A release under the reuse tag. *)
Definition reused (t : list Blob.event) : Prop :=
  exists conn, In (conn, false) (Blob.released t).

Section Vocabulary.

Context {W : Type}.
Variable env : Blob.Env W.
Variable client : Blob.BlobClient.

(** The size field of a packet lies within its data's capacity. *)
Definition sized (p : Proto.Packet) : Prop :=
  0 <= Proto.Size p <= Z.of_nat (cap (Proto.Data p)).

(** The four conditions on a reply to a write request. *)
Definition write_acknowledged (request reply : Proto.Packet) : Prop :=
  Proto.Opcode reply = Blob.OpOk env /\
  Proto.ReqID request = Proto.ReqID reply /\
  Proto.PartitionID request = Proto.PartitionID reply /\
  exists payload,
    slice_to (Proto.Data request) (Proto.Size request) = Val payload /\
    crc32_ChecksumIEEE (contents payload) = Proto.Crc reply.

(** The conditions on a reply to a read request: the checksum is the one of
    the reply's own data. *)
Definition read_validated (request reply : Proto.Packet) : Prop :=
  Proto.Opcode reply = Blob.OpOk env /\
  Proto.ReqID request = Proto.ReqID reply /\
  Proto.PartitionID request = Proto.PartitionID reply /\
  exists payload,
    slice_to (Proto.Data reply) (Proto.Size reply) = Val payload /\
    crc32_ChecksumIEEE (contents payload) = Proto.Crc reply.

(** The log and the result of a run. *)
Definition trace_of {A : Type} (r : list Blob.event * W * outcome A)
    : list Blob.event := fst (fst r).

Definition result_of {A : Type} (r : list Blob.event * W * outcome A)
    : outcome A := snd r.

(** The locator never answers a request for a write partition with a
    partition the request excluded. *)
Definition honours_exclusion : Prop :=
  forall exclude w w1 dp err,
    Blob.GetWriteDataPartition env exclude w = (w1, (Some dp, err)) ->
    ~ In (Wrapper.PartitionID dp) exclude.

(** An answer of the locator a turn of [Write] can use: no error, and a
    partition with a host. *)
Definition usable (c : list Z * option Wrapper.DataPartition * option error)
    : Prop :=
  snd c = None /\ exists d, snd (fst c) = Some d /\ Wrapper.Hosts d <> [].

(** What makes a turn of [Write] panic: a nil partition without an error,
    a partition without a host, or a packet whose size is beyond its
    data. *)
Definition Write_panic_cause (request : Proto.Packet)
    (calls : list (list Z * option Wrapper.DataPartition * option error))
    (t : list Blob.event) : Prop :=
  (exists ex, In (ex, None, None) calls) \/
  (exists ex d, In (ex, Some d, None) calls /\ Wrapper.Hosts d = []) \/
  (exists reply, In reply (Blob.received t) /\
                 Blob.checkWriteResponse env request reply = Panic).

(** What one turn of the loop of [Write] does. *)
Definition Write_body_post (request : Proto.Packet) (exclude : list Z) (w : W)
    (r : list Blob.event * W * outcome (Blob.flow (string * option error) (list Z)))
    : Prop :=
  exists w1 dp err,
    Blob.GetWriteDataPartition env exclude w = (w1, (dp, err)) /\
    Blob.sched_calls (trace_of r) = [(exclude, dp, err)] /\
    Forall (eq request) (Blob.sent (trace_of r)) /\
    (result_of r <> Panic ->
     Blob.handed_back (trace_of r) = Blob.acquired (trace_of r)) /\
    match result_of r with
    | Val (Blob.Continue exclude') =>
        err = None /\ ~ reused (trace_of r) /\
        exists d, dp = Some d /\ exclude' = exclude ++ [Wrapper.PartitionID d]
    | Val (Blob.Return (key, None)) =>
        err = None /\ reused (trace_of r) /\
        exists partitionID fileID objID size,
          key = Blob.GenKey env (Blob.cluster client) (Blob.volname client)
                  partitionID fileID objID size
    | Val (Blob.Return (key, Some e)) =>
        err <> None /\ ~ reused (trace_of r) /\
        key = EmptyString /\ e = Errno ENOMEM
    | Panic =>
        err = None /\ ~ reused (trace_of r) /\
        Write_panic_cause request [(exclude, dp, err)] (trace_of r)
    end.

(** What the loop of [Write] does in [n] turns from the exclusion list
    [exclude]. *)
Definition Write_loop_post (n : nat) (request : Proto.Packet) (exclude : list Z)
    (r : list Blob.event * W * outcome (string * option error)) : Prop :=
  let calls := Blob.sched_calls (trace_of r) in
  (List.length calls <= n)%nat /\
  (forall i ex dp err,
     nth_error calls i = Some (ex, dp, err) ->
     ex = exclude ++ Blob.chosen_ids (firstn i calls)) /\
  (honours_exclusion ->
   NoDup (Blob.chosen_ids calls) /\
   forall x, In x (Blob.chosen_ids calls) -> ~ In x exclude) /\
  Forall (eq request) (Blob.sent (trace_of r)) /\
  (result_of r <> Panic ->
   Blob.handed_back (trace_of r) = Blob.acquired (trace_of r)) /\
  (forall key,
     result_of r = Val (key, None) ->
     reused (trace_of r) /\
     exists partitionID fileID objID size,
       key = Blob.GenKey env (Blob.cluster client) (Blob.volname client)
               partitionID fileID objID size) /\
  (forall key e,
     result_of r = Val (key, Some e) ->
     key = EmptyString /\ ~ reused (trace_of r) /\
     ((e = Errno ENOMEM /\ exists ex dp err, In (ex, dp, Some err) calls) \/
      (e = Errno EIO /\ List.length calls = n /\
       Forall (fun c => snd c = None) calls /\
       List.length (Blob.chosen_ids calls) = n))) /\
  (result_of r = Panic ->
   ~ reused (trace_of r) /\ Write_panic_cause request calls (trace_of r)).

(** The calls of one exchange that ends well: a connection to [host], the
    request out, the reply in, the connection back for reuse. *)
Definition exchange (host : string) (conn : option Blob.Conn)
    (request reply : Proto.Packet) : list Blob.event :=
  [Blob.EvGet host conn None; Blob.EvWriteToConn request conn None;
   Blob.EvReadFromConn conn reply None; Blob.EvPut conn false].

(** What one turn of the loop of [Read] does. *)
Definition Read_body_post (request : Proto.Packet) (target : string)
    (r : list Blob.event * W * outcome (Blob.flow (bytes * option error) (option error)))
    : Prop :=
  Blob.dialled (trace_of r) = [target] /\
  match result_of r with
  | Val (Blob.Return (data, err)) =>
      err = None /\ reused (trace_of r) /\
      exists conn reply,
        trace_of r = exchange target conn request reply /\
        read_validated request reply /\
        data = Proto.Data reply
  | Val (Blob.Continue err) =>
      Forall (fun reply => ~ read_validated request reply)
             (Blob.received (trace_of r)) /\
      ~ reused (trace_of r) /\
      exists cause format args,
        err = Some (Annotatef cause format args) /\
        (In cause (transport_errors (trace_of r)) \/
         exists reply,
           Blob.received (trace_of r) = [reply] /\
           Blob.checkReadResponse env request reply = Val (Some cause))
  | Panic =>
      exists reply,
        Blob.received (trace_of r) = [reply] /\
        Blob.checkReadResponse env request reply = Panic
  end.

(** What the loop of [Read] does over the hosts [hosts]. *)
Definition Read_loop_post (request : Proto.Packet) (hosts : list string)
    (r : list Blob.event * W * outcome (bytes * option error)) : Prop :=
  (exists n, Blob.dialled (trace_of r) = firstn n hosts) /\
  (forall data e,
    result_of r = Val (data, e) ->
    (e = None /\ reused (trace_of r) /\
     exists n host conn before rejected reply,
       nth_error hosts n = Some host /\
       Blob.dialled (trace_of r) = firstn (S n) hosts /\
       trace_of r = before ++ exchange host conn request reply /\
       Blob.received (trace_of r) = rejected ++ [reply] /\
       Forall (fun p => ~ read_validated request p) rejected /\
       read_validated request reply /\
       data = Proto.Data reply) \/
    (e = Some (Errno EIO) /\ ~ reused (trace_of r) /\
     data = nil_bytes /\
     Blob.dialled (trace_of r) = hosts /\
     Forall (fun p => ~ read_validated request p)
            (Blob.received (trace_of r)))) /\
  (result_of r = Panic ->
   exists reply,
     In reply (Blob.received (trace_of r)) /\
     Blob.checkReadResponse env request reply = Panic).

End Vocabulary.

(** * More runs on concrete inputs *)

Module MoreScenario.

Import Blob.

Local Open Scope string_scope.

Definition dp0 : Wrapper.DataPartition :=
  {| Wrapper.PartitionID := 0; Wrapper.Hosts := ["h0"] |}.

Definition dpNoHosts : Wrapper.DataPartition :=
  {| Wrapper.PartitionID := 7; Wrapper.Hosts := [] |}.

(** A cluster without partitions. *)
Definition noPartition : Sim.World :=
  {| Sim.partitions := []; Sim.dials := []; Sim.writes := [];
     Sim.reads := []; Sim.next_req := 0 |}.

(** One partition, whose host acknowledges the write of [Scenario.hi]. *)
Definition acknowledged : Sim.World :=
  {| Sim.partitions := [dp0];
     Sim.dials := [(Some 1%nat, None)];
     Sim.writes := [None];
     Sim.reads := [(Scenario.ackFrom 0, None)];
     Sim.next_req := 0 |}.

(** A reply with the success opcode and nothing else in order. *)
Definition oddReply : Proto.Packet :=
  {| Proto.Opcode := Sim.OpOk; Proto.ReqID := 42; Proto.PartitionID := 99;
     Proto.Crc := 12345; Proto.Size := 0; Proto.Data := nil_bytes |}.

(** One replica, which answers a delete with that reply. *)
Definition deleteOddReply : Sim.World :=
  {| Sim.partitions := [Scenario.dp7];
     Sim.dials := [(Some 1%nat, None)];
     Sim.writes := [None];
     Sim.reads := [(oddReply, None)];
     Sim.next_req := 0 |}.

(** One replica, which accepts the connection and fails the send. *)
Definition sendFails : Sim.World :=
  {| Sim.partitions := [Scenario.dp7];
     Sim.dials := [(Some 1%nat, None)];
     Sim.writes := [Some (Foreign 4)];
     Sim.reads := [];
     Sim.next_req := 0 |}.

(** One partition, without hosts. *)
Definition noHosts : Sim.World :=
  {| Sim.partitions := [dpNoHosts]; Sim.dials := []; Sim.writes := [];
     Sim.reads := []; Sim.next_req := 0 |}.

(** What the key ["/vol/7/1/1/2"] and the key ["/vol/9/1/1/2"] parse to. *)
Definition fields7 : KeyFields :=
  {| key_cluster := ""; key_volname := "vol"; key_partitionID := 7;
     key_fileID := 1; key_objID := 1; key_size := 2 |}.

Definition fields9 : KeyFields :=
  {| key_cluster := ""; key_volname := "vol"; key_partitionID := 9;
     key_fileID := 1; key_objID := 1; key_size := 2 |}.

(** A node with a report for each of two disks. *)
Definition twoDisks : Master.DataNode :=
  Master.updateNodeMetric
    {| Master.resp_Total := 100; Master.resp_Used := 40;
       Master.resp_Available := 60; Master.resp_RackName := "rack";
       Master.resp_CreatedPartitionCnt := 2;
       Master.resp_PartitionReports :=
         [{| Master.PartitionID := 3; Master.DiskPath := "/d1" |};
          {| Master.PartitionID := 4; Master.DiskPath := "/d2" |};
          {| Master.PartitionID := 5; Master.DiskPath := "/d1" |}] |}
    0 (Master.newDataNode PrimFloat.zero "addr" "cluster").

End MoreScenario.

(** * More vocabulary *)

(** What every [Get] returned as a connection, with or without an error. *)
Definition dial_conns (t : list Blob.event) : list (option Blob.Conn) :=
  flat_map (fun ev => match ev with
                      | Blob.EvGet _ conn _ => [conn]
                      | _ => []
                      end) t.

(** The lookups of a partition by id, and what the locator answered. *)
Definition lookups (t : list Blob.event)
    : list (Z * option Wrapper.DataPartition * option error) :=
  flat_map (fun ev => match ev with
                      | Blob.EvGetDataPartition pid dp err => [(pid, dp, err)]
                      | _ => []
                      end) t.

(** A [Put] under the discard tag. *)
Definition discards (p : option Blob.Conn * bool) : Prop := snd p = true.

Section MoreVocabulary.

Context {W : Type}.
Variable env : Blob.Env W.
Variable client : Blob.BlobClient.

(** The key [Write] makes from an acknowledgement. *)
Definition key_of_reply (reply : Proto.Packet) : string :=
  let '(partitionID, fileID, objID, size) := Blob.ParsePacket env reply in
  Blob.GenKey env (Blob.cluster client) (Blob.volname client)
    partitionID fileID objID size.

(** The test [Read] and [Delete] put a key to fails: it does not parse, or
    it names another cluster or another volume. *)
Definition refused (key : string) : Prop :=
  snd (Blob.ParseKey env key) <> None \/
  Blob.key_cluster (fst (Blob.ParseKey env key)) <> Blob.cluster client \/
  Blob.key_volname (fst (Blob.ParseKey env key)) <> Blob.volname client.

(** How one turn of the loop of [Write] ends, call by call. *)
Definition Write_body_paths (request : Proto.Packet) (exclude : list Z)
    (r : list Blob.event * W * outcome (Blob.flow (string * option error) (list Z)))
    : Prop :=
  Blob.checked (trace_of r) = Blob.failed_sends (trace_of r) /\
  match result_of r with
  | Val (Blob.Return (key, Some e)) =>
      exists dp err,
        trace_of r = [Blob.EvGetWriteDataPartition exclude dp (Some err)]
  | Val (Blob.Return (key, None)) =>
      exists d host rest conn reply,
        Wrapper.Hosts d = host :: rest /\
        trace_of r = Blob.EvGetWriteDataPartition exclude (Some d) None
                     :: exchange host conn request reply /\
        Blob.checkWriteResponse env request reply = Val None /\
        key = key_of_reply reply
  | Val (Blob.Continue _) => Forall discards (Blob.released (trace_of r))
  | Panic => True
  end.

(** How the loop of [Write] ends. *)
Definition Write_loop_paths (request : Proto.Packet)
    (r : list Blob.event * W * outcome (string * option error)) : Prop :=
  Blob.checked (trace_of r) = Blob.failed_sends (trace_of r) /\
  (forall ex dp err,
     In (ex, dp, Some err) (Blob.sched_calls (trace_of r)) ->
     result_of r = Val (EmptyString, Some (Errno ENOMEM)) /\
     exists before,
       trace_of r = before ++ [Blob.EvGetWriteDataPartition ex dp (Some err)] /\
       Forall (fun c => snd c = None) (Blob.sched_calls before)) /\
  match result_of r with
  | Val (key, None) =>
      exists before ex d host rest conn reply,
        Wrapper.Hosts d = host :: rest /\
        trace_of r = before
                     ++ Blob.EvGetWriteDataPartition ex (Some d) None
                        :: exchange host conn request reply /\
        Forall discards (Blob.released before) /\
        Blob.checkWriteResponse env request reply = Val None /\
        key = key_of_reply reply
  | Val (_, Some _) => Forall discards (Blob.released (trace_of r))
  | Panic => True
  end.

(** How one turn of the loop of [Read] passes the connection back. *)
Definition Read_body_paths
    (r : list Blob.event * W * outcome (Blob.flow (bytes * option error) (option error)))
    : Prop :=
  exists conn,
    dial_conns (trace_of r) = [conn] /\
    Blob.checked (trace_of r) = Blob.failed_sends (trace_of r) /\
    (result_of r <> Panic -> Blob.handed_back (trace_of r) = [conn]) /\
    match result_of r with
    | Val (Blob.Return (_, err)) =>
        err = None /\
        Blob.released (trace_of r) = [(conn, false)] /\
        Blob.acquired (trace_of r) = [conn]
    | Val (Blob.Continue _) => Forall discards (Blob.released (trace_of r))
    | Panic => True
    end.

(** How the loop of [Read] passes the connections back. *)
Definition Read_loop_paths
    (r : list Blob.event * W * outcome (bytes * option error)) : Prop :=
  Blob.checked (trace_of r) = Blob.failed_sends (trace_of r) /\
  (result_of r <> Panic ->
   Blob.handed_back (trace_of r) = dial_conns (trace_of r)) /\
  match result_of r with
  | Val (_, None) =>
      exists conns conn puts,
        dial_conns (trace_of r) = conns ++ [conn] /\
        Blob.released (trace_of r) = puts ++ [(conn, false)] /\
        Forall discards puts
  | Val (_, Some _) => Forall discards (Blob.released (trace_of r))
  | Panic => True
  end.

End MoreVocabulary.

(** * Properties of the data node *)

Section DataNodeFacts.

Variable defaultNodeTimeOutSec : Z.

Local Notation "'checkLiveness'" := (Master.checkLiveness defaultNodeTimeOutSec).
Local Notation "'call'" := (Master.call defaultNodeTimeOutSec).
Local Notation "'nodeTimeOut'" := (Master.nodeTimeOut defaultNodeTimeOutSec).

(** What [SelectNodeForWrite] leaves alone and what it writes: the count
    goes up by one (as a uint64), the carry down by one (as a float64), the
    ratio is the quotient of [Used] and [Total]. *)
Lemma SelectNodeForWrite_fields (n : Master.DataNode) :
  let n' := Master.SelectNodeForWrite n in
  Master.Total n' = Master.Total n /\
  Master.Used n' = Master.Used n /\
  Master.Available n' = Master.Available n /\
  Master.ID n' = Master.ID n /\
  Master.RackName n' = Master.RackName n /\
  Master.Addr n' = Master.Addr n /\
  Master.ReportTime n' = Master.ReportTime n /\
  Master.isActive n' = Master.isActive n /\
  Master.Sender n' = Master.Sender n /\
  Master.dataPartitionReports n' = Master.dataPartitionReports n /\
  Master.DataPartitionCount n' = Master.DataPartitionCount n /\
  Master.NodeSetID n' = Master.NodeSetID n /\
  Master.SelectCount n' = wrap_uint64 (Master.SelectCount n + 1) /\
  Master.Carry n' = PrimFloat.sub (Master.Carry n) PrimFloat.one /\
  Master.Ratio n' = PrimFloat.div (float64_of_uint64 (Master.Used n))
                                  (float64_of_uint64 (Master.Total n)).
Proof.
  cbn. repeat split.
Qed.

(** Below the top of its range the count goes up by exactly one. *)
Lemma SelectNodeForWrite_count (n : Master.DataNode) :
  0 <= Master.SelectCount n < 2 ^ 64 - 1 ->
  Master.SelectCount (Master.SelectNodeForWrite n) = Master.SelectCount n + 1.
Proof.
  intros H. cbn. unfold wrap_uint64. apply Z.mod_small. lia.
Qed.

(** With a total that is not zero, a selection computes the ratio a metric
    update computes from the same two numbers. *)
Lemma SelectNodeForWrite_ratio_as_update (n : Master.DataNode)
    (resp : Master.DataNodeHeartBeatResponse) (now : Time) :
  Master.resp_Total resp <> 0 ->
  Master.Ratio (Master.SelectNodeForWrite (Master.updateNodeMetric resp now n))
  = Master.Ratio (Master.updateNodeMetric resp now n).
Proof.
  intros H. cbn. apply Z.eqb_neq in H. rewrite H. reflexivity.
Qed.

(** Whenever the total and the used bytes are both zero, a selection stores
    a NaN. *)
Lemma SelectNodeForWrite_nan (n : Master.DataNode) :
  Master.Total n = 0 -> Master.Used n = 0 ->
  Master.Ratio (Master.SelectNodeForWrite n) = PrimFloat.nan.
Proof.
  intros Ht Hu. cbn. rewrite Ht, Hu. reflexivity.
Qed.

(** C1: a selection on a node whose total is zero.  The metric update had
    set the ratio to 0.0; the selection divides zero by zero and stores a
    NaN, which is not 0.0.  The count goes up by one and the carry down by
    one. *)
Theorem SelectNodeForWrite_zero_total :
  Master.Total emptyNode = 0 /\
  Master.Ratio emptyNode = PrimFloat.zero /\
  Master.Ratio (Master.SelectNodeForWrite emptyNode) = PrimFloat.nan /\
  PrimFloat.eqb (Master.Ratio (Master.SelectNodeForWrite emptyNode))
                PrimFloat.zero = false /\
  Master.SelectCount (Master.SelectNodeForWrite emptyNode) = 1 /\
  Master.Carry (Master.SelectNodeForWrite emptyNode)
  = PrimFloat.sub (Master.Carry emptyNode) PrimFloat.one.
Proof.
  repeat split; vm_compute; reflexivity.
Qed.

Lemma checkLiveness_isActive (now : Time) (n : Master.DataNode) :
  Master.isActive (checkLiveness now n)
  = if nodeTimeOut <? time_Since now (Master.ReportTime n)
    then false else Master.isActive n.
Proof.
  unfold Master.checkLiveness.
  destruct (nodeTimeOut <? time_Since now (Master.ReportTime n)); reflexivity.
Qed.

(** C8: the activity flag.  Of the methods that write a node, only the
    liveness check can take the flag from true to false, and it does so
    with the report older than the timeout; only a metric update can take
    it from false to true.  The liveness check leaves the flag false when
    the report is older than the timeout, whatever the flag was, and
    untouched otherwise; a metric update leaves it true. *)
Theorem isActive_transitions (m : Master.mutator) (n : Master.DataNode) :
  (Master.isActive n = true -> Master.isActive (call m n) = false ->
   exists now, m = Master.Call_checkLiveness now /\
               nodeTimeOut < time_Since now (Master.ReportTime n)) /\
  (Master.isActive n = false -> Master.isActive (call m n) = true ->
   exists resp now, m = Master.Call_updateNodeMetric resp now) /\
  (forall now,
     (nodeTimeOut < time_Since now (Master.ReportTime n) ->
      Master.isActive (checkLiveness now n) = false) /\
     (time_Since now (Master.ReportTime n) <= nodeTimeOut ->
      Master.isActive (checkLiveness now n) = Master.isActive n)) /\
  (forall resp now, Master.isActive (Master.updateNodeMetric resp now n) = true).
Proof.
  split; [| split; [| split]].
  - intros Hon Hoff. destruct m as [now | resp now | carry |]; cbn in Hoff.
    + exists now. split; [reflexivity |].
      rewrite checkLiveness_isActive in Hoff.
      destruct (nodeTimeOut <? time_Since now (Master.ReportTime n)) eqn:E.
      * apply Z.ltb_lt. exact E.
      * congruence.
    + discriminate.
    + congruence.
    + congruence.
  - intros Hoff Hon. destruct m as [now | resp now | carry |]; cbn in Hon.
    + rewrite checkLiveness_isActive in Hon.
      destruct (nodeTimeOut <? time_Since now (Master.ReportTime n));
        congruence.
    + exists resp, now. reflexivity.
    + congruence.
    + congruence.
  - intros now. rewrite checkLiveness_isActive. split; intros H.
    + apply Z.ltb_lt in H. rewrite H. reflexivity.
    + apply Z.ltb_ge in H. rewrite H. reflexivity.
  - intros resp now. reflexivity.
Qed.

(** With a timeout that fits a [Duration], the saturating difference
    exceeds it exactly when the difference of the two instants does. *)
Lemma time_Since_exceeds (now t : Time) :
  0 <= nodeTimeOut < maxDuration ->
  (nodeTimeOut < time_Since now t <-> nodeTimeOut < now - t).
Proof.
  unfold time_Since, time_Sub, maxDuration, minDuration. intros H. lia.
Qed.

End DataNodeFacts.

(** A node that reported at time 0 is checked 200 seconds later against a
    timeout of 180 seconds, and then reports again. *)
Lemma isActive_transitions_witness :
  let n := Master.updateNodeMetric emptyReport 0
             (Master.newDataNode PrimFloat.zero EmptyString EmptyString) in
  let late := 200 * time_Second in
  Master.isActive n = true /\
  Master.isActive (Master.checkLiveness 180 late n) = false /\
  Master.isActive
    (Master.updateNodeMetric emptyReport late
       (Master.checkLiveness 180 late n)) = true.
Proof.
  pose proof (isActive_transitions 180 (Master.Call_checkLiveness (200 * time_Second))
                emptyNode) as [_ [_ [Hlive Hupd]]].
  cbv zeta. split; [reflexivity |]. split.
  - apply (proj1 (Hlive (200 * time_Second))). vm_compute. reflexivity.
  - apply Hupd.
Defined.

(** * Properties of the blob client *)

Section ResponseFacts.

Context {W : Type}.
Variable env : Blob.Env W.

Lemma slice_to_sized (s : bytes) (n : Z) :
  0 <= n <= Z.of_nat (cap s) -> exists t, slice_to s n = Val t.
Proof.
  intros [H0 H1]. unfold slice_to.
  apply Z.leb_le in H0. apply Z.leb_le in H1. rewrite H0, H1.
  eexists. reflexivity.
Qed.

Lemma checkWriteResponse_accepts (request reply : Proto.Packet) :
  Blob.checkWriteResponse env request reply = Val None <->
  write_acknowledged env request reply.
Proof.
  unfold Blob.checkWriteResponse, write_acknowledged.
  destruct (Z.eqb_spec (Proto.Opcode reply) (Blob.OpOk env)) as [Hop | Hop]; cbn.
  2:{ split.
      - destruct (slice_to (Proto.Data reply) (Proto.Size reply)); discriminate.
      - intros [H _]. contradiction. }
  destruct (Z.eqb_spec (Proto.ReqID request) (Proto.ReqID reply)) as [Hid | Hid]; cbn.
  2:{ split; [discriminate | intros (_ & H & _); contradiction]. }
  destruct (Z.eqb_spec (Proto.PartitionID request) (Proto.PartitionID reply))
    as [Hpid | Hpid]; cbn.
  2:{ split; [discriminate | intros (_ & _ & H & _); contradiction]. }
  destruct (slice_to (Proto.Data request) (Proto.Size request)) as [payload |]; cbn.
  2:{ split; [discriminate | intros (_ & _ & _ & p & H & _); discriminate]. }
  destruct (Z.eqb_spec (crc32_ChecksumIEEE (contents payload)) (Proto.Crc reply))
    as [Hcrc | Hcrc]; cbn.
  - split; [| reflexivity]. intros _. repeat split; try assumption.
    exists payload. split; [reflexivity | assumption].
  - split; [discriminate |].
    intros (_ & _ & _ & p & Hp & Hc). injection Hp as <-. contradiction.
Qed.

Lemma checkWriteResponse_total (request reply : Proto.Packet) :
  sized request -> sized reply ->
  Blob.checkWriteResponse env request reply = Val None \/
  exists format args,
    Blob.checkWriteResponse env request reply = Val (Some (Errorf format args)).
Proof.
  intros Hq Hp. unfold Blob.checkWriteResponse.
  destruct (slice_to_sized _ _ Hq) as [tq Eq].
  destruct (slice_to_sized _ _ Hp) as [tp Ep].
  rewrite Eq, Ep. cbn.
  repeat match goal with
         | |- context [if ?b then _ else _] => destruct b; cbn
         end;
    solve [left; reflexivity | right; eexists; eexists; reflexivity].
Qed.

(** C2: [checkWriteResponse] returns no error exactly when the reply has
    the success opcode, the request's id and partition id, and the CRC-32
    of the request's [Data[:Size]] as its [Crc]; and on packets whose size
    lies within their data, every other pair gets an error. *)
Theorem checkWriteResponse_accepts_iff (request reply : Proto.Packet) :
  (Blob.checkWriteResponse env request reply = Val None <->
   write_acknowledged env request reply) /\
  (sized request -> sized reply -> ~ write_acknowledged env request reply ->
   exists format args,
     Blob.checkWriteResponse env request reply = Val (Some (Errorf format args))).
Proof.
  split; [apply checkWriteResponse_accepts |].
  intros Hq Hp Hno.
  destruct (checkWriteResponse_total request reply Hq Hp) as [H | H].
  - apply checkWriteResponse_accepts in H. contradiction.
  - exact H.
Qed.

Lemma checkReadResponse_accepts (request reply : Proto.Packet) :
  Blob.checkReadResponse env request reply = Val None <->
  read_validated env request reply.
Proof.
  unfold Blob.checkReadResponse, read_validated.
  destruct (Z.eqb_spec (Proto.Opcode reply) (Blob.OpOk env)) as [Hop | Hop]; cbn.
  2:{ split.
      - destruct (slice_to (Proto.Data reply) (Proto.Size reply)); discriminate.
      - intros [H _]. contradiction. }
  destruct (Z.eqb_spec (Proto.ReqID request) (Proto.ReqID reply)) as [Hid | Hid]; cbn.
  2:{ split; [discriminate | intros (_ & H & _); contradiction]. }
  destruct (Z.eqb_spec (Proto.PartitionID request) (Proto.PartitionID reply))
    as [Hpid | Hpid]; cbn.
  2:{ split; [discriminate | intros (_ & _ & H & _); contradiction]. }
  destruct (slice_to (Proto.Data reply) (Proto.Size reply)) as [payload |]; cbn.
  2:{ split; [discriminate | intros (_ & _ & _ & p & H & _); discriminate]. }
  destruct (Z.eqb_spec (crc32_ChecksumIEEE (contents payload)) (Proto.Crc reply))
    as [Hcrc | Hcrc]; cbn.
  - split; [| reflexivity]. intros _. repeat split; try assumption.
    exists payload. split; [reflexivity | assumption].
  - split; [discriminate |].
    intros (_ & _ & _ & p & Hp & Hc). injection Hp as <-. contradiction.
Qed.

Lemma checkReadResponse_total (request reply : Proto.Packet) :
  sized reply ->
  Blob.checkReadResponse env request reply = Val None \/
  exists format args,
    Blob.checkReadResponse env request reply = Val (Some (Errorf format args)).
Proof.
  intros Hp. unfold Blob.checkReadResponse.
  destruct (slice_to_sized _ _ Hp) as [tp Ep].
  rewrite Ep. cbn.
  repeat match goal with
         | |- context [if ?b then _ else _] => destruct b; cbn
         end;
    solve [left; reflexivity | right; eexists; eexists; reflexivity].
Qed.

End ResponseFacts.

(** Splits a goal on every answer of the environment it matches on,
    innermost first. *)
Ltac innermost x :=
  lazymatch x with
  | context [match ?y with _ => _ end] => innermost y
  | _ => x
  end.

Ltac split_answers :=
  repeat match goal with
         | |- context [match ?x with _ => _ end] =>
             let y := innermost x in destruct y eqn:?; cbv beta iota zeta
         end.

Section WriteFacts.

Context {W : Type}.
Variable env : Blob.Env W.
Variable client : Blob.BlobClient.

Lemma bind_run {A B : Type} (m : Blob.M A) (k : A -> Blob.M B) (w : W) :
  Blob.bind m k w =
  match m w with
  | (t, w1, Val a) =>
      (t ++ trace_of (k a w1), snd (fst (k a w1)), result_of (k a w1))
  | (t, w1, Panic) => (t, w1, Panic)
  end.
Proof.
  unfold Blob.bind, trace_of, result_of.
  destruct (m w) as [[t w1] [a |]]; [| reflexivity].
  destruct (k a w1) as [[t' w2] b]. reflexivity.
Qed.

Lemma not_reused_nil : ~ reused [].
Proof. intros [c H]. exact H. Qed.

Lemma Write_body_spec (request : Proto.Packet) (exclude : list Z) (w : W) :
  Write_body_post env client request exclude w (Blob.Write_body env client request exclude w).
Proof.
  unfold Write_body_post, reused.
  destruct (Blob.GetWriteDataPartition env exclude w) as [w1 [dp err]] eqn:Hs.
  exists w1, dp, err. split; [reflexivity |].
  cbv beta iota delta
    [Blob.Write_body Blob.bind Blob.ret Blob.lift Blob.deref Blob.index0
     Blob.call_GetWriteDataPartition Blob.call_Get Blob.call_Put
     Blob.call_CheckErrorForPutConnect Blob.call_WriteToConn
     Blob.call_ReadFromConn is_nil negb trace_of result_of fst snd app].
  rewrite Hs.
  split_answers; cbn;
    repeat match goal with
           | |- _ /\ _ => split
           | |- Forall _ [] => constructor
           | |- Forall _ (_ :: _) => constructor
           | |- ~ _ => intros [c Hc]; cbn in Hc; intuition congruence
           end;
    try reflexivity; try discriminate; try congruence; eauto 10.
  all: unfold Write_panic_cause; cbn;
    first [ left; eexists; left; reflexivity
          | right; left; do 2 eexists; split; [left; reflexivity | eassumption]
          | right; right; eexists; split; [left; reflexivity | eassumption] ].
Qed.


Lemma sched_calls_app (t1 t2 : list Blob.event) :
  Blob.sched_calls (t1 ++ t2) = Blob.sched_calls t1 ++ Blob.sched_calls t2.
Proof. apply flat_map_app. Qed.

Lemma sent_app (t1 t2 : list Blob.event) :
  Blob.sent (t1 ++ t2) = Blob.sent t1 ++ Blob.sent t2.
Proof. apply flat_map_app. Qed.

Lemma released_app (t1 t2 : list Blob.event) :
  Blob.released (t1 ++ t2) = Blob.released t1 ++ Blob.released t2.
Proof. apply flat_map_app. Qed.

Lemma handed_back_app (t1 t2 : list Blob.event) :
  Blob.handed_back (t1 ++ t2) = Blob.handed_back t1 ++ Blob.handed_back t2.
Proof. apply flat_map_app. Qed.

Lemma checked_app (t1 t2 : list Blob.event) :
  Blob.checked (t1 ++ t2) = Blob.checked t1 ++ Blob.checked t2.
Proof. apply flat_map_app. Qed.

Lemma failed_sends_app (t1 t2 : list Blob.event) :
  Blob.failed_sends (t1 ++ t2) = Blob.failed_sends t1 ++ Blob.failed_sends t2.
Proof. apply flat_map_app. Qed.

Lemma acquired_app (t1 t2 : list Blob.event) :
  Blob.acquired (t1 ++ t2) = Blob.acquired t1 ++ Blob.acquired t2.
Proof. apply flat_map_app. Qed.

Lemma dialled_app (t1 t2 : list Blob.event) :
  Blob.dialled (t1 ++ t2) = Blob.dialled t1 ++ Blob.dialled t2.
Proof. apply flat_map_app. Qed.

Lemma received_app (t1 t2 : list Blob.event) :
  Blob.received (t1 ++ t2) = Blob.received t1 ++ Blob.received t2.
Proof. apply flat_map_app. Qed.

Lemma reused_app (t1 t2 : list Blob.event) :
  reused (t1 ++ t2) <-> reused t1 \/ reused t2.
Proof.
  unfold reused. rewrite released_app. split.
  - intros [c H]. apply in_app_or in H. destruct H; [left | right]; eauto.
  - intros [[c H] | [c H]]; exists c; apply in_or_app; auto.
Qed.

Lemma Write_loop_spec (n : nat) (request : Proto.Packet) :
  forall (exclude : list Z) (w : W),
    Write_loop_post env client n request exclude (Blob.Write_loop env n client request exclude w).
Proof.
  induction n as [| n IH]; intros exclude w.
  - unfold Write_loop_post. cbn.
    split; [lia |]. split.
    { intros i ex dp err H. destruct i; discriminate. }
    split.
    { intros _. split; [constructor | intros x []]. }
    split; [constructor |]. split; [reflexivity |].
    split; [discriminate |]. split; [| discriminate].
    intros key e [= <- <-]. split; [reflexivity |].
    split; [apply not_reused_nil |].
    right. repeat split; constructor.
  - cbn [Blob.Write_loop]. rewrite bind_run.
    pose proof (Write_body_spec request exclude w) as Hb.
    destruct (Blob.Write_body env client request exclude w) as [[t w1] out].
    destruct Hb as (w0 & dp & err & Hs & Hc & Hsent & Hrel & Hout).
    unfold trace_of, result_of in Hc, Hsent, Hrel, Hout. cbn [fst snd] in *.
    destruct out as [[[key e] | exclude'] |].
    + (* the turn returns *)
      unfold Write_loop_post. cbn [Blob.ret trace_of result_of fst snd].
      rewrite app_nil_r, Hc. cbn [List.length Blob.chosen_ids flat_map].
      split; [lia |]. split.
      { intros i ex dp' err' H. destruct i as [| i]; cbn in H.
        - injection H as <- _ _. cbn. now rewrite app_nil_r.
        - destruct i; discriminate. }
      split.
      { intros Hh. destruct dp as [d |]; cbn.
        - split; [repeat constructor; intros [] |].
          intros x [<- | []]. eapply Hh. exact Hs.
        - split; [constructor | intros x []]. }
      split; [exact Hsent |].
      split; [intros _; apply Hrel; discriminate |].
      split.
      { intros key' [= -> ->]. destruct Hout as (_ & Hr & Hk). split; assumption. }
      split.
      { intros key' e' [= -> ->]. destruct Hout as (He & Hr & -> & ->).
        repeat split; [exact Hr |]. left. split; [reflexivity |].
        destruct err as [e0 |]; [| contradiction].
        exists exclude, dp, e0. left. reflexivity. }
      discriminate.
    + (* the turn goes on *)
      destruct Hout as (-> & Hr & d & -> & ->).
      specialize (IH (exclude ++ [Wrapper.PartitionID d]) w1).
      destruct (Blob.Write_loop env n client request
                  (exclude ++ [Wrapper.PartitionID d]) w1) as [[t' w2] out'].
      unfold Write_loop_post in *. cbv zeta in *.
      cbn [trace_of result_of fst snd] in *.
      rewrite sched_calls_app, sent_app, handed_back_app, acquired_app, Hc.
      simpl.
      destruct IH as (Hlen & Hex & Hnd & Hs' & Hrel' & Hok & Herr & Hpanic).
      split; [lia |]. split.
      { intros i ex dp' err' H. destruct i as [| i]; cbn in H.
        - injection H as <- _ _. cbn. now rewrite app_nil_r.
        - apply Hex in H. rewrite H. cbn. now rewrite <- app_assoc. }
      split.
      { intros Hh. destruct (Hnd Hh) as [Hnd1 Hnd2]. split.
        - constructor; [| exact Hnd1].
          intros Hin. apply (Hnd2 _ Hin). apply in_or_app. right. now left.
        - intros x [<- | Hin].
          + eapply Hh. exact Hs.
          + intros Hx. apply (Hnd2 _ Hin). apply in_or_app. now left. }
      split; [apply Forall_app; split; assumption |].
      split.
      { intros Hp. rewrite (Hrel' Hp). f_equal. apply Hrel. discriminate. }
      split.
      { intros key Hkey. destruct (Hok key Hkey) as [Hr' Hk].
        split; [apply reused_app; now right | exact Hk]. }
      split.
      { intros key e Hkey. destruct (Herr key e Hkey) as (-> & Hr' & Hcase).
        split; [reflexivity |]. split.
        { intros Hx. apply reused_app in Hx. tauto. }
        destruct Hcase as [(-> & ex & dp' & err' & Hin) | (-> & Hl & Hall & Hch)].
        - left. split; [reflexivity |]. exists ex, dp', err'. now right.
        - right. split; [reflexivity |]. split; [lia |]. split.
          + constructor; [reflexivity | exact Hall].
          + cbn in Hch |- *. lia. }
      intros Hp. destruct (Hpanic Hp) as [Hru Hcause]. split.
      { intros Hx. apply reused_app in Hx. tauto. }
      destruct Hcause as [(ex & Hin) | [(ex & d' & Hin & Hh) | (reply & Hin & Hck)]].
      * left. exists ex. now right.
      * right. left. exists ex, d'. split; [now right | exact Hh].
      * right. right. exists reply. split; [| exact Hck].
        rewrite received_app. apply in_or_app. now right.
    + (* the turn panics *)
      destruct Hout as (-> & Hr & Hcause).
      unfold Write_loop_post. cbn [trace_of result_of fst snd].
      rewrite Hc. cbn [List.length].
      split; [lia |]. split.
      { intros i ex dp' err' H. destruct i as [| i]; cbn in H.
        - injection H as <- _ _. cbn. now rewrite app_nil_r.
        - destruct i; discriminate. }
      split.
      { intros Hh. destruct dp as [d |]; cbn.
        - split; [repeat constructor; intros [] |].
          intros x [<- | []]. eapply Hh. exact Hs.
        - split; [constructor | intros x []]. }
      split; [exact Hsent |].
      split; [intros H; now contradiction H |].
      split; [discriminate |]. split; [discriminate |].
      intros _. split; [exact Hr | exact Hcause].
Qed.


Lemma Write_run (data : bytes) (w : W) :
  Blob.Write env client data w =
  match Blob.NewBlobWritePacket env None data w with
  | (w1, Val request) => Blob.Write_loop env Blob.MaxRetryCnt client request [] w1
  | (w1, Panic) => ([], w1, Panic)
  end.
Proof.
  unfold Blob.Write. rewrite bind_run. unfold Blob.call_NewBlobWritePacket.
  destruct (Blob.NewBlobWritePacket env None data w) as [w1 [request |]];
    [| reflexivity].
  unfold trace_of, result_of.
  destruct (Blob.Write_loop env Blob.MaxRetryCnt client request [] w1)
    as [[t w2] out].
  reflexivity.
Qed.

(** C3: the request of [Write] is built once, from the nil partition,
    before the locator is asked: every request a run puts on the wire is
    that one packet, whichever partition the turn was given; and if the
    constructor panics on the nil partition the run ends there, with no
    call made. *)
Theorem Write_request_built_before_partition_chosen (data : bytes) (w : W) :
  match Blob.NewBlobWritePacket env None data w with
  | (_, Val request) =>
      Forall (eq request) (Blob.sent (trace_of (Blob.Write env client data w)))
  | (_, Panic) =>
      trace_of (Blob.Write env client data w) = [] /\
      result_of (Blob.Write env client data w) = Panic
  end.
Proof.
  rewrite Write_run.
  destruct (Blob.NewBlobWritePacket env None data w) as [w1 [request |]].
  - apply (Write_loop_spec Blob.MaxRetryCnt request [] w1).
  - split; reflexivity.
Qed.

(** C4: a run of [Write] asks for a partition at most 100 times; the
    exclusion list of each request holds the ids of the partitions of all
    earlier turns (each of which failed), in order; so with a locator that
    honours the list no partition is handed out twice; an error returned is
    ENOMEM after the locator failed, or EIO after exactly 100 failed turns;
    and a run in which every answer of the locator is a partition with a
    host, every packet has its size within its data and no turn is
    acknowledged makes 100 turns and returns EIO. *)
Theorem Write_retries_with_exclusion (data : bytes) (w : W) :
  let r := Blob.Write env client data w in
  let calls := Blob.sched_calls (trace_of r) in
  (List.length calls <= 100)%nat /\
  (forall i ex dp err,
     nth_error calls i = Some (ex, dp, err) ->
     ex = Blob.chosen_ids (firstn i calls)) /\
  (honours_exclusion env -> NoDup (Blob.chosen_ids calls)) /\
  (forall key e,
     result_of r = Val (key, Some e) ->
     key = EmptyString /\
     ((e = Errno ENOMEM /\ exists ex dp err, In (ex, dp, Some err) calls) \/
      (e = Errno EIO /\ List.length (Blob.chosen_ids calls) = 100%nat))) /\
  (forall w1 request,
     Blob.NewBlobWritePacket env None data w = (w1, Val request) ->
     sized request ->
     Forall usable calls ->
     Forall sized (Blob.received (trace_of r)) ->
     ~ reused (trace_of r) ->
     result_of r = Val (EmptyString, Some (Errno EIO)) /\
     List.length calls = 100%nat).
Proof.
  cbv zeta. rewrite Write_run.
  destruct (Blob.NewBlobWritePacket env None data w) as [w1 [request |]].
  - pose proof (Write_loop_spec Blob.MaxRetryCnt request [] w1) as H.
    destruct (Blob.Write_loop env Blob.MaxRetryCnt client request [] w1)
      as [[t w2] out].
    unfold Write_loop_post in H. cbv zeta in H.
    cbn [trace_of result_of fst snd app] in *.
    destruct H as (Hlen & Hex & Hnd & _ & _ & Hok & Herr & Hpanic).
    split; [exact Hlen |]. split; [exact Hex |].
    split; [intros Hh; apply (Hnd Hh) |]. split.
    + intros key e Hkey. destruct (Herr key e Hkey) as (-> & _ & Hcase).
      split; [reflexivity |].
      destruct Hcase as [Hcase | (-> & _ & _ & Hch)]; [left; exact Hcase |].
      right. split; [reflexivity | exact Hch].
    + intros w1' request' [= <- <-] Hq Hall Hs Hr.
      rewrite Forall_forall in Hall, Hs.
      destruct out as [[key [e |]] |].
      * destruct (Herr key e eq_refl) as (-> & _ & Hcase).
        destruct Hcase as [(_ & ex & dp & err & Hin) | (-> & Hl & _)].
        -- destruct (Hall _ Hin) as [Hnone _]. discriminate Hnone.
        -- split; [reflexivity | exact Hl].
      * destruct (Hok key eq_refl) as [Hr' _]. contradiction.
      * exfalso. destruct (Hpanic eq_refl) as [_ Hcause].
        destruct Hcause as [(ex & Hin) | [(ex & d & Hin & Hh) | (reply & Hin & Hck)]].
        -- destruct (Hall _ Hin) as (_ & d & Hd & _). discriminate Hd.
        -- destruct (Hall _ Hin) as (_ & d' & Hd & Hne). cbn in Hd.
           injection Hd as <-. contradiction.
        -- destruct (checkWriteResponse_total env request reply Hq (Hs _ Hin))
             as [E | (f & a & E)]; congruence.
  - cbn. split; [lia |]. split.
    + intros i ex dp err H. destruct i; discriminate.
    + split; [intros _; constructor |]. split; discriminate.
Qed.

(** The key of a successful [Write] is made from the client's cluster and
    volume names. *)
Lemma Write_key (data : bytes) (w : W) (key : string) :
  result_of (Blob.Write env client data w) = Val (key, None) ->
  exists partitionID fileID objID size,
    key = Blob.GenKey env (Blob.cluster client) (Blob.volname client)
            partitionID fileID objID size.
Proof.
  rewrite Write_run.
  destruct (Blob.NewBlobWritePacket env None data w) as [w1 [request |]].
  - intros H. apply (Write_loop_spec Blob.MaxRetryCnt request [] w1) in H.
    apply H.
  - discriminate.
Qed.

(** A run of [Write] that does not panic passes back to the pool every
    connection it was handed, once, in the order it got them: by [Put], or
    by [CheckErrorForPutConnect] after a send that failed. *)
Lemma Write_releases (data : bytes) (w : W) :
  result_of (Blob.Write env client data w) <> Panic ->
  Blob.handed_back (trace_of (Blob.Write env client data w))
  = Blob.acquired (trace_of (Blob.Write env client data w)).
Proof.
  rewrite Write_run.
  destruct (Blob.NewBlobWritePacket env None data w) as [w1 [request |]].
  - apply (Write_loop_spec Blob.MaxRetryCnt request [] w1).
  - reflexivity.
Qed.

End WriteFacts.

Section ReadFacts.

Context {W : Type}.
Variable env : Blob.Env W.
Variable client : Blob.BlobClient.

Lemma Read_body_spec (request : Proto.Packet) (target : string) (w : W) :
  Read_body_post env request target (Blob.Read_body env request target w).
Proof.
  unfold Read_body_post, reused.
  cbv beta iota zeta delta
    [Blob.Read_body Blob.bind Blob.ret Blob.lift
     Blob.call_Get Blob.call_Put
     Blob.call_CheckErrorForPutConnect Blob.call_WriteToConn
     Blob.call_ReadFromConn trace_of result_of fst snd app].
  split_answers; cbn;
    repeat match goal with
           | |- _ /\ _ => split
           | |- Forall _ [] => constructor
           | |- ~ (exists _, _) => intros [c Hc]; cbn in Hc; intuition congruence
           end;
    try reflexivity; try discriminate; try congruence;
    try (do 3 eexists; split; [reflexivity |]; cbn; auto; fail).
  - constructor; [| constructor].
    intros Hv. apply checkReadResponse_accepts in Hv. congruence.
  - do 3 eexists. split; [reflexivity |]. right. eexists. split; [reflexivity |].
    eassumption.
  - eexists. left. reflexivity.
  - do 2 eexists. split; [reflexivity |]. split; [| reflexivity].
    apply checkReadResponse_accepts. assumption.
  - eexists. split; [reflexivity | assumption].
Qed.

Lemma Read_loop_spec (request : Proto.Packet) (hosts : list string) :
  forall (err : option error) (w : W),
    Read_loop_post env request hosts (Blob.Read_loop env request hosts err w).
Proof.
  induction hosts as [| target rest IH]; intros err w.
  - unfold Read_loop_post. cbn. split; [exists 0%nat; reflexivity |].
    split; [| discriminate].
    intros data e [= <- <-]. right.
    repeat split; try constructor. apply not_reused_nil.
  - cbn [Blob.Read_loop]. rewrite bind_run.
    pose proof (Read_body_spec request target w) as Hb.
    destruct (Blob.Read_body env request target w) as [[t w1] out].
    destruct Hb as [Hd Hout].
    unfold trace_of, result_of in Hd, Hout. cbn [fst snd] in *.
    destruct out as [[[data e] | err'] |].
    + (* the turn returns *)
      unfold Read_loop_post. cbn [Blob.ret trace_of result_of fst snd].
      rewrite app_nil_r, Hd. split; [exists 1%nat; reflexivity |].
      split; [| discriminate].
      intros data' e' [= <- <-].
      destruct Hout as (-> & Hru & conn & reply & Ht & Hv & ->). left.
      split; [reflexivity |]. split; [exact Hru |].
      exists 0%nat, target, conn, [], [], reply. subst t.
      repeat split; try apply Hv. constructor.
    + (* the turn goes on *)
      destruct Hout as (Hrej & Hr & _).
      specialize (IH err' w1).
      destruct (Blob.Read_loop env request rest err' w1) as [[t' w2] out'].
      unfold Read_loop_post in *. cbn [trace_of result_of fst snd] in *.
      rewrite dialled_app, received_app, Hd. simpl.
      destruct IH as ([n Hn] & Hres & Hpanic). split.
      { exists (S n). cbn. now rewrite Hn. }
      split.
      * intros data e Hout. destruct (Hres data e Hout)
          as [(-> & Hru & k & host & conn & t0 & rs & reply
               & Hnth & Hdl & Ht & Hrec & Hrs & Hv & ->)
             | (-> & Hru & -> & Hdial & Hall)].
        -- left. split; [reflexivity |]. split; [apply reused_app; now right |].
           exists (S k), host, conn, (t ++ t0), (Blob.received t ++ rs), reply.
           rewrite Hrec, Hdl, Ht, !app_assoc. repeat split; try apply Hv.
           ++ exact Hnth.
           ++ apply Forall_app. split; assumption.
        -- right. split; [reflexivity |]. split.
           { intros Hx. apply reused_app in Hx. tauto. }
           split; [reflexivity |]. split; [now rewrite Hdial |].
           apply Forall_app. split; assumption.
      * intros Hp. destruct (Hpanic Hp) as (reply & Hin & Hck).
        exists reply. split; [apply in_or_app; now right | exact Hck].
    + (* the turn panics *)
      unfold Read_loop_post. cbn [trace_of result_of fst snd].
      rewrite Hd. split; [exists 1%nat; reflexivity |].
      split; [discriminate |]. intros _.
      destruct Hout as (reply & Hrec & Hck). exists reply.
      rewrite Hrec. split; [now left | exact Hck].
Qed.

Lemma strings_Compare_eq (a b : string) :
  (strings_Compare a b =? 0) = true <-> a = b.
Proof.
  unfold strings_Compare. split.
  - intros H. apply String.compare_eq_iff.
    destruct (String.compare a b); [reflexivity | discriminate H ..].
  - intros ->.
    pose proof (String.compare_antisym b b) as E.
    destruct (String.compare b b); [reflexivity | discriminate E ..].
Qed.

(** The test [Read] and [Delete] put a key to. *)
Lemma key_check (k : Blob.KeyFields) (err : option error) :
  negb (is_nil err)
  || negb (strings_Compare (Blob.key_cluster k) (Blob.cluster client) =? 0)
  || negb (strings_Compare (Blob.key_volname k) (Blob.volname client) =? 0)
  = false <->
  err = None /\ Blob.key_cluster k = Blob.cluster client /\
  Blob.key_volname k = Blob.volname client.
Proof.
  rewrite !orb_false_iff, !negb_false_iff, !strings_Compare_eq.
  destruct err; cbn; intuition congruence.
Qed.

(** A key that fails the test is refused before any call is made. *)
Lemma Read_refuses (key : string) (w : W) :
  snd (Blob.ParseKey env key) <> None \/
  Blob.key_cluster (fst (Blob.ParseKey env key)) <> Blob.cluster client \/
  Blob.key_volname (fst (Blob.ParseKey env key)) <> Blob.volname client ->
  Blob.Read env client key w = ([], w, Val (nil_bytes, Some (Errno EINVAL))).
Proof.
  intros H. unfold Blob.Read.
  destruct (Blob.ParseKey env key) as [k err]. cbn [fst snd] in H.
  destruct (_ || _ || _) eqn:E; [reflexivity |].
  apply key_check in E. tauto.
Qed.

Lemma Delete_refuses (key : string) (w : W) :
  snd (Blob.ParseKey env key) <> None \/
  Blob.key_cluster (fst (Blob.ParseKey env key)) <> Blob.cluster client \/
  Blob.key_volname (fst (Blob.ParseKey env key)) <> Blob.volname client ->
  Blob.Delete env client key w = ([], w, Val (Some (Errno EINVAL))).
Proof.
  intros H. unfold Blob.Delete.
  destruct (Blob.ParseKey env key) as [k err]. cbn [fst snd] in H.
  destruct (_ || _ || _) eqn:E; [reflexivity |].
  apply key_check in E. tauto.
Qed.


Lemma Read_run (key : string) (w w1 w2 : W) (k : Blob.KeyFields)
    (dp : Wrapper.DataPartition) (e0 : option error) (request : Proto.Packet) :
  Blob.ParseKey env key = (k, None) ->
  Blob.key_cluster k = Blob.cluster client ->
  Blob.key_volname k = Blob.volname client ->
  Blob.GetDataPartition env (Blob.key_partitionID k) w = (w1, (Some dp, e0)) ->
  Blob.NewBlobReadPacket env (Blob.key_partitionID k) (Blob.key_fileID k)
    (Blob.key_objID k) (Blob.key_size k) w1 = (w2, request) ->
  Blob.Read env client key w
  = match Blob.Read_loop env request (Wrapper.Hosts dp) e0 w2 with
    | (t, w3, out) =>
        (Blob.EvGetDataPartition (Blob.key_partitionID k) (Some dp) e0 :: t,
         w3, out)
    end.
Proof.
  intros Hk Hc Hv Hdp Hrq. unfold Blob.Read. rewrite Hk.
  assert (E : negb (is_nil (@None error))
              || negb (strings_Compare (Blob.key_cluster k) (Blob.cluster client) =? 0)
              || negb (strings_Compare (Blob.key_volname k) (Blob.volname client) =? 0)
              = false) by (apply key_check; auto).
  rewrite E.
  unfold Blob.bind, Blob.call_GetDataPartition, Blob.call_NewBlobReadPacket.
  rewrite Hdp, Hrq.
  destruct (Blob.Read_loop env request (Wrapper.Hosts dp) e0 w2) as [[t w3] out].
  reflexivity.
Qed.

(** C5, as the code has it: [Read] asks the hosts of the partition for a
    connection in their listed order; when it returns a payload, the run
    ends with the exchange with the last host asked, whose reply passed the
    check (CRC-32 of its [Data[:Size]] equal to its [Crc]) and whose data
    is the payload, and every reply received before had failed the check;
    when no host yields a reply that passes, every host has been asked and
    the error is the bare EIO; and a run whose replies all have their size
    within their data does return. *)
Theorem Read_replica_fallback (key : string) (w w1 w2 : W) (k : Blob.KeyFields)
    (dp : Wrapper.DataPartition) (e0 : option error) (request : Proto.Packet) :
  Blob.ParseKey env key = (k, None) ->
  Blob.key_cluster k = Blob.cluster client ->
  Blob.key_volname k = Blob.volname client ->
  Blob.GetDataPartition env (Blob.key_partitionID k) w = (w1, (Some dp, e0)) ->
  Blob.NewBlobReadPacket env (Blob.key_partitionID k) (Blob.key_fileID k)
    (Blob.key_objID k) (Blob.key_size k) w1 = (w2, request) ->
  let r := Blob.Read env client key w in
  (exists n, Blob.dialled (trace_of r) = firstn n (Wrapper.Hosts dp)) /\
  (forall data e,
    result_of r = Val (data, e) ->
    (e = None /\
     exists n host conn before rejected reply,
       nth_error (Wrapper.Hosts dp) n = Some host /\
       Blob.dialled (trace_of r) = firstn (S n) (Wrapper.Hosts dp) /\
       trace_of r = before ++ exchange host conn request reply /\
       Blob.received (trace_of r) = rejected ++ [reply] /\
       Forall (fun p => ~ read_validated env request p) rejected /\
       read_validated env request reply /\
       data = Proto.Data reply) \/
    (e = Some (Errno EIO) /\ data = nil_bytes /\
     Blob.dialled (trace_of r) = Wrapper.Hosts dp /\
     Forall (fun p => ~ read_validated env request p)
            (Blob.received (trace_of r)))) /\
  (Forall sized (Blob.received (trace_of r)) -> result_of r <> Panic).
Proof.
  intros Hk Hc Hv Hdp Hrq. cbv zeta.
  rewrite (Read_run key w w1 w2 k dp e0 request Hk Hc Hv Hdp Hrq).
  pose proof (Read_loop_spec request (Wrapper.Hosts dp) e0 w2) as H.
  destruct (Blob.Read_loop env request (Wrapper.Hosts dp) e0 w2) as [[t w3] out].
  unfold Read_loop_post in H. cbn [trace_of result_of fst snd] in *.
  destruct H as (Hd & Hres & Hpanic). split; [exact Hd |]. split.
  - intros data e Hout.
    destruct (Hres data e Hout)
      as [(He & _ & n & host & conn & t0 & rs & reply & Hnth & Hdl & Ht & H)
         | (He & _ & H)].
    + left. split; [exact He |].
      exists n, host, conn,
        (Blob.EvGetDataPartition (Blob.key_partitionID k) (Some dp) e0 :: t0),
        rs, reply.
      rewrite Ht in *. repeat split; try apply H; assumption.
    + right. split; assumption.
  - intros Hs Hp. destruct (Hpanic Hp) as (reply & Hin & Hck).
    rewrite Forall_forall in Hs. specialize (Hs reply Hin).
    destruct (checkReadResponse_total env request reply Hs) as [E | (f & a & E)];
      congruence.
Qed.

(** C7: [Delete] on a reply whose opcode is not the success one.  The
    connection the pool handed out is not given back: the run ends with
    one connection acquired and none released, by [Put] or by
    [CheckErrorForPutConnect]. *)
Theorem Delete_keeps_connection (key : string) (w w1 w2 w3 w4 w5 : W)
    (k : Blob.KeyFields) (dp : Wrapper.DataPartition) (e0 : option error)
    (request reply : Proto.Packet) (host : string) (rest : list string)
    (conn : option Blob.Conn) :
  Blob.ParseKey env key = (k, None) ->
  Blob.key_cluster k = Blob.cluster client ->
  Blob.key_volname k = Blob.volname client ->
  Blob.GetDataPartition env (Blob.key_partitionID k) w = (w1, (Some dp, e0)) ->
  Blob.NewBlobDeletePacket env dp (Blob.key_fileID k) (Blob.key_objID k) w1
  = (w2, request) ->
  Wrapper.Hosts dp = host :: rest ->
  Blob.conns_Get env host w2 = (w3, (conn, None)) ->
  Blob.WriteToConn env request conn w3 = (w4, None) ->
  Blob.ReadFromConn env conn w4 = (w5, (reply, None)) ->
  Proto.Opcode reply <> Blob.OpOk env ->
  let r := Blob.Delete env client key w in
  Blob.acquired (trace_of r) = [conn] /\
  Blob.released (trace_of r) = [] /\
  Blob.checked (trace_of r) = [] /\
  result_of r <> Val None.
Proof.
  intros Hk Hc Hv Hdp Hrq Hh Hget Hwr Hrd Hop. cbv zeta.
  unfold Blob.Delete. rewrite Hk.
  assert (E : negb (is_nil (@None error))
              || negb (strings_Compare (Blob.key_cluster k) (Blob.cluster client) =? 0)
              || negb (strings_Compare (Blob.key_volname k) (Blob.volname client) =? 0)
              = false) by (apply key_check; auto).
  rewrite E.
  apply Z.eqb_neq in Hop.
  cbv beta iota zeta delta
    [Blob.bind Blob.ret Blob.lift Blob.index0 Blob.call_GetDataPartition
     Blob.call_NewBlobDeletePacket Blob.call_Get Blob.call_WriteToConn
     Blob.call_ReadFromConn Blob.call_Put].
  rewrite Hdp, Hrq, Hh, Hget, Hwr, Hrd, Hop. cbn [negb].
  destruct (slice_to (Proto.Data reply) (Proto.Size reply)); cbn;
    repeat split; discriminate.
Qed.

End ReadFacts.

Section IdentityFacts.

Context {W : Type}.
Variable env : Blob.Env W.

(** C10: the client [NewBlobClient] hands out has the empty string for its
    cluster; no method writes the field.  So every key [Write] returns is
    made with the empty cluster name, and [Read] and [Delete] refuse, with
    EINVAL and before any call, every key whose cluster parses to anything
    else. *)
Theorem cluster_identity_empty (vol masters : string) (w : W)
    (c : Blob.BlobClient) :
  result_of (Blob.NewBlobClient env vol masters w) = Val (Some c, None) ->
  Blob.cluster c = EmptyString /\
  Blob.volname c = vol /\
  (forall data w' key,
     result_of (Blob.Write env c data w') = Val (key, None) ->
     exists partitionID fileID objID size,
       key = Blob.GenKey env EmptyString vol partitionID fileID objID size) /\
  (forall key w',
     Blob.key_cluster (fst (Blob.ParseKey env key)) <> EmptyString ->
     Blob.Read env c key w' = ([], w', Val (nil_bytes, Some (Errno EINVAL))) /\
     Blob.Delete env c key w' = ([], w', Val (Some (Errno EINVAL)))).
Proof.
  unfold Blob.NewBlobClient, Blob.bind, Blob.call_NewDataPartitionWrapper,
    Blob.ret, result_of.
  destruct (Blob.NewDataPartitionWrapper env vol masters w) as [w1 [e |]];
    cbn; intros H; [discriminate |].
  injection H as <-. cbn.
  split; [reflexivity |]. split; [reflexivity |]. split.
  - intros data w' key Hkey.
    apply (Write_key env {| Blob.cluster := EmptyString; Blob.volname := vol |}) in Hkey.
    exact Hkey.
  - intros key w' Hne. split.
    + apply Read_refuses. right. left. exact Hne.
    + apply Delete_refuses. right. left. exact Hne.
Qed.

End IdentityFacts.

(** * Properties of the key codec *)

Section KeyCodecFacts.

Import KeyCodec.

Local Open Scope string_scope.

Lemma split_no_sep (s : string) :
  has_sep s = false -> split s = [s].
Proof.
  induction s as [| c s IH]; cbn; [reflexivity |].
  intros H. apply orb_false_iff in H. destruct H as [Hc Hs].
  rewrite Hc, (IH Hs). reflexivity.
Qed.

Lemma split_field (s rest : string) :
  has_sep s = false -> split (s ++ String sep rest) = s :: split rest.
Proof.
  induction s as [| c s IH]; cbn.
  - intros _. reflexivity.
  - intros H. apply orb_false_iff in H. destruct H as [Hc Hs].
    rewrite Hc, (IH Hs). reflexivity.
Qed.

Lemma digits_no_sep (d : Decimal.uint) :
  has_sep (DecimalString.NilEmpty.string_of_uint d) = false.
Proof.
  induction d; cbn; auto.
Qed.

Lemma print_uint_no_sep (z : Z) : has_sep (print_uint z) = false.
Proof.
  unfold print_uint, DecimalString.NilZero.string_of_uint.
  destruct (N.to_uint (Z.to_N z)) eqn:E; try reflexivity;
    rewrite <- E; apply digits_no_sep.
Qed.

Lemma to_uint_nonnil (n : N) : N.to_uint n <> Decimal.Nil.
Proof.
  destruct n as [| p]; cbn; [discriminate |].
  apply DecimalPos.Unsigned.to_uint_nonnil.
Qed.

Lemma parse_print_uint (bits z : Z) :
  (0 <= z < 2 ^ bits)%Z -> parse_uint bits (print_uint z) = Some z.
Proof.
  intros [H0 H1]. unfold parse_uint, print_uint.
  rewrite DecimalString.NilZero.usu by apply to_uint_nonnil.
  assert (E : Z.of_uint (N.to_uint (Z.to_N z)) = z).
  { change (Z.of_N (N.of_uint (N.to_uint (Z.to_N z))) = z).
    rewrite DecimalN.Unsigned.of_to. apply Z2N.id. exact H0. }
  rewrite E. apply Z.ltb_lt in H1. rewrite H1. reflexivity.
Qed.

Lemma parse_uint_numeral (bits : Z) (s : string) (z : Z) :
  parse_uint bits s = Some z -> numeral bits s.
Proof.
  unfold parse_uint, numeral.
  destruct (DecimalString.NilZero.uint_of_string s) as [d |]; [| discriminate].
  destruct (Z.ltb_spec (Z.of_uint d) (2 ^ bits)); [| discriminate].
  intros _. exists d. split; [reflexivity | assumption].
Qed.

Lemma parse_uint_range (bits : Z) (s : string) (z : Z) :
  parse_uint bits s = Some z -> (0 <= z < 2 ^ bits)%Z.
Proof.
  unfold parse_uint.
  destruct (DecimalString.NilZero.uint_of_string s) as [d |]; [| discriminate].
  destruct (Z.ltb_spec (Z.of_uint d) (2 ^ bits)); [| discriminate].
  intros [= <-]. split; [| assumption].
  unfold Z.of_uint. apply N2Z.is_nonneg.
Qed.

Lemma ParseKey_GenKey (c v : string) (p f o z : Z) :
  valid_tuple c v p f o z ->
  ParseKey (GenKey c v p f o z)
  = ({| Blob.key_cluster := c; Blob.key_volname := v;
        Blob.key_partitionID := p; Blob.key_fileID := f;
        Blob.key_objID := o; Blob.key_size := z |}, None).
Proof.
  intros (Hc & Hv & Hp & Hf & Ho & Hz).
  unfold ParseKey, GenKey.
  change (String.append "/") with (String sep).
  cbn [String.append].
  rewrite (split_field c _ Hc), (split_field v _ Hv).
  rewrite !split_field by apply print_uint_no_sep.
  rewrite split_no_sep by apply print_uint_no_sep.
  rewrite !parse_print_uint by assumption.
  reflexivity.
Qed.

Lemma ParseKey_malformed (key : string) :
  ~ well_formed key -> ParseKey key = (zeroKeyFields, Some (Errno EINVAL)).
Proof.
  intros Hn. unfold ParseKey.
  destruct (split key) as [| c [| v [| p [| f [| o [| z [| x l]]]]]]] eqn:E;
    try reflexivity.
  destruct (parse_uint 32 p) eqn:Ep; [| reflexivity].
  destruct (parse_uint 64 f) eqn:Ef; [| reflexivity].
  destruct (parse_uint 64 o) eqn:Eo; [| reflexivity].
  destruct (parse_uint 32 z) eqn:Ez; [| reflexivity].
  exfalso. apply Hn. exists c, v, p, f, o, z.
  repeat split; eauto using parse_uint_numeral.
Qed.

(** What [ParseKey] returns without an error is a tuple of the domain. *)
Lemma ParseKey_valid (key : string) (k : Blob.KeyFields) :
  ParseKey key = (k, None) ->
  valid_tuple (Blob.key_cluster k) (Blob.key_volname k)
    (Blob.key_partitionID k) (Blob.key_fileID k) (Blob.key_objID k)
    (Blob.key_size k).
Proof.
  unfold ParseKey.
  destruct (split key) as [| c [| v [| p [| f [| o [| z [| x l]]]]]]] eqn:E;
    try discriminate.
  destruct (parse_uint 32 p) eqn:Ep; [| discriminate].
  destruct (parse_uint 64 f) eqn:Ef; [| discriminate].
  destruct (parse_uint 64 o) eqn:Eo; [| discriminate].
  destruct (parse_uint 32 z) eqn:Ez; [| discriminate].
  intros [= <-]. cbn.
  assert (Hsplit : forall s l, split s = l -> Forall (fun x => has_sep x = false) l).
  { clear. induction s as [| a s IH]; cbn; intros l <-.
    - repeat constructor.
    - destruct (Ascii.eqb a sep) eqn:Ea.
      + constructor; [reflexivity | apply IH; reflexivity].
      + specialize (IH _ eq_refl). destruct (split s) as [| h t].
        * repeat constructor. cbn. now rewrite Ea.
        * inversion IH; subst. constructor; [| assumption].
          cbn. rewrite Ea. assumption. }
  apply Hsplit in E.
  inversion E as [| ? ? Hc E1]; subst. inversion E1 as [| ? ? Hv _]; subst.
  repeat split; try assumption; eapply parse_uint_range; eassumption.
Qed.

(** C6: over the tuples of the domain, parsing the key made from a tuple
    gives the tuple back, without an error; a string that is not of the
    shape of a key parses to the invalid-argument error and the zero
    values, and [Read] and [Delete] over this codec turn it down with
    EINVAL before any call. *)
Theorem key_round_trip (c v : string) (p f o z : Z) (key : string) :
  (valid_tuple c v p f o z ->
   ParseKey (GenKey c v p f o z)
   = ({| Blob.key_cluster := c; Blob.key_volname := v;
         Blob.key_partitionID := p; Blob.key_fileID := f;
         Blob.key_objID := o; Blob.key_size := z |}, None)) /\
  (~ well_formed key ->
   ParseKey key = (zeroKeyFields, Some (Errno EINVAL)) /\
   forall (W : Type) (env : Blob.Env W) (client : Blob.BlobClient) (w : W),
     Blob.ParseKey env = ParseKey ->
     Blob.Read env client key w = ([], w, Val (nil_bytes, Some (Errno EINVAL))) /\
     Blob.Delete env client key w = ([], w, Val (Some (Errno EINVAL)))).
Proof.
  split; [apply ParseKey_GenKey |].
  intros Hn. pose proof (ParseKey_malformed key Hn) as E.
  split; [exact E |].
  intros W env client w Henv. split.
  - apply Read_refuses. left. rewrite Henv, E. discriminate.
  - apply Delete_refuses. left. rewrite Henv, E. discriminate.
Qed.

End KeyCodecFacts.

Section Runs.

Import Scenario.

Local Open Scope string_scope.

Lemma Sim_honours_exclusion : honours_exclusion Sim.env.
Proof.
  unfold honours_exclusion. cbn. unfold Sim.GetWriteDataPartition.
  intros exclude w w1 dp err H.
  destruct (find _ (Sim.partitions w)) as [d |] eqn:E; [| discriminate].
  injection H as _ <- _.
  apply find_some in E. destruct E as [_ E].
  apply negb_true_iff in E. intros Hin.
  assert (X : existsb (Z.eqb (Wrapper.PartitionID d)) exclude = true).
  { apply existsb_exists. exists (Wrapper.PartitionID d).
    split; [exact Hin | apply Z.eqb_refl]. }
  congruence.
Qed.

(** The check value of CRC-32: the checksum of the digits 1 to 9. *)
Example crc32_check_value :
  crc32_ChecksumIEEE (contents (Sim.payload "123456789")) = 0xCBF43926%Z.
Proof. vm_compute. reflexivity. Qed.

(** The good acknowledgement is accepted, the one with another checksum
    gets an error. *)
Lemma checkWriteResponse_accepts_iff_witness :
  Blob.checkWriteResponse Sim.env Scenario.writeRequest Scenario.ackGood = Val None /\
  exists format args,
    Blob.checkWriteResponse Sim.env Scenario.writeRequest Scenario.ackBadCrc
    = Val (Some (Errorf format args)).
Proof.
  split.
  - apply (proj1 (checkWriteResponse_accepts_iff Sim.env
                    Scenario.writeRequest Scenario.ackGood)).
    repeat split. eexists. split; reflexivity.
  - apply (proj2 (checkWriteResponse_accepts_iff Sim.env
                    Scenario.writeRequest Scenario.ackBadCrc)).
    + split; vm_compute; discriminate.
    + split; vm_compute; discriminate.
    + intros (_ & _ & _ & p & Hp & Hc).
      injection Hp as <-. vm_compute in Hc. discriminate.
Defined.

(** Two partitions acknowledge the write, and both acknowledgements are
    turned down: the request that went to partitions 7 and 8 is the one
    built from the nil partition, with partition id 0. *)
Lemma Write_request_built_before_partition_chosen_witness :
  let r := Blob.Write Sim.env Sim.client Scenario.hi Scenario.twoPartitions in
  Blob.chosen_ids (Blob.sched_calls (trace_of r)) = [7; 8] /\
  Blob.received (trace_of r) = [Scenario.ackFrom 7; Scenario.ackFrom 8] /\
  Forall (fun request => Proto.PartitionID request = 0) (Blob.sent (trace_of r)) /\
  List.length (Blob.sent (trace_of r)) = 2%nat /\
  result_of r = Val (EmptyString, Some (Errno ENOMEM)).
Proof.
  cbv zeta.
  pose proof (Write_request_built_before_partition_chosen Sim.env Sim.client
                Scenario.hi Scenario.twoPartitions) as H.
  cbn [Blob.NewBlobWritePacket Sim.env Sim.NewBlobWritePacket] in H.
  split; [vm_compute; reflexivity |]. split; [vm_compute; reflexivity |].
  split.
  - eapply Forall_impl; [| exact H]. intros request <-. reflexivity.
  - split; vm_compute; reflexivity.
Defined.

(** A hundred partitions that cannot be dialled: a hundred turns, each
    with one more id excluded, no partition twice, then EIO. *)
Lemma Write_retries_with_exclusion_witness :
  let r := Blob.Write Sim.env Sim.client Scenario.hi Scenario.hundredDown in
  let calls := Blob.sched_calls (trace_of r) in
  result_of r = Val (EmptyString, Some (Errno EIO)) /\
  List.length calls = 100%nat /\
  NoDup (Blob.chosen_ids calls) /\
  nth_error calls 3 = Some ([0; 1; 2], nth_error (Sim.partitions Scenario.hundredDown) 3, None).
Proof.
  cbv zeta.
  destruct (Write_retries_with_exclusion Sim.env Sim.client
              Scenario.hi Scenario.hundredDown) as (_ & _ & Hnd & _ & Hlast).
  assert (Hq : sized (Sim.nilRequest Scenario.hi 0)).
  { split; vm_compute; discriminate. }
  assert (Ha : Forall usable
                 (Blob.sched_calls (trace_of (Blob.Write Sim.env Sim.client Scenario.hi
                                                Scenario.hundredDown)))).
  { vm_compute.
    repeat (constructor;
            [split; [reflexivity | eexists; split; [reflexivity | discriminate]] |]).
    constructor. }
  assert (Hs : Forall sized
                 (Blob.received (trace_of (Blob.Write Sim.env Sim.client Scenario.hi
                                             Scenario.hundredDown)))).
  { vm_compute. constructor. }
  assert (Hu : ~ reused (trace_of (Blob.Write Sim.env Sim.client Scenario.hi
                                      Scenario.hundredDown))).
  { intros [c Hc]. vm_compute in Hc. exact Hc. }
  destruct (Hlast _ _ eq_refl Hq Ha Hs Hu) as [Hres Hlen].
  split; [exact Hres |]. split; [exact Hlen |].
  split; [exact (Hnd Sim_honours_exclusion) |].
  vm_compute. reflexivity.
Defined.

(** Three replicas, the first two corrupt: the payload of the third is
    returned. *)
Lemma Read_replica_fallback_witness :
  let r := Blob.Read Sim.env Sim.client Scenario.key7 Scenario.twoCorrupt in
  Blob.dialled (trace_of r) = ["h1"; "h2"; "h3"] /\
  result_of r = Val (Scenario.hi, None) /\
  exists n, Blob.dialled (trace_of r) = firstn n (Wrapper.Hosts Scenario.dp7x3).
Proof.
  cbv zeta.
  split; [vm_compute; reflexivity |]. split; [vm_compute; reflexivity |].
  eapply (Read_replica_fallback Sim.env Sim.client Scenario.key7
            Scenario.twoCorrupt); vm_compute; reflexivity.
Defined.

(** C5 with the causes aggregated fails: the one replica cannot be dialled,
    and the error [Read] returns is the bare EIO, which wraps nothing: the
    cause the pool reported is not among the errors it carries. *)
Lemma Read_error_not_aggregated :
  let r := Blob.Read Sim.env Sim.client Scenario.key7 Scenario.replicaDown in
  result_of r = Val (nil_bytes, Some (Errno EIO)) /\
  Blob.dialled (trace_of r) = Wrapper.Hosts Scenario.dp7 /\
  transport_errors (trace_of r) = [Foreign 3] /\
  causes (Errno EIO) = [Errno EIO] /\
  ~ incl (transport_errors (trace_of r)) (causes (Errno EIO)).
Proof.
  cbv zeta. repeat split; try (vm_compute; reflexivity).
  intros H. specialize (H (Foreign 3)). vm_compute in H.
  destruct H as [H | []]; [left; reflexivity | discriminate H].
Qed.

(** The replica refuses the delete: one connection acquired, none given
    back. *)
Lemma Delete_keeps_connection_witness :
  let r := Blob.Delete Sim.env Sim.client Scenario.key7 Scenario.deleteRefused in
  Blob.acquired (trace_of r) = [Some 1%nat] /\
  Blob.released (trace_of r) = [] /\
  Blob.checked (trace_of r) = [] /\
  result_of r <> Val None.
Proof.
  cbv zeta.
  eapply (Delete_keeps_connection Sim.env Sim.client Scenario.key7
            Scenario.deleteRefused);
    try (vm_compute; reflexivity).
  vm_compute. discriminate.
Defined.



(** The client made for volume "vol": its keys start with the empty
    cluster name, and a key of cluster "c" is turned down. *)
Lemma cluster_identity_empty_witness :
  Blob.cluster Sim.client = EmptyString /\
  Blob.Read Sim.env Sim.client "c/vol/7/1/1/2"%string Scenario.twoCorrupt
  = ([], Scenario.twoCorrupt, Val (nil_bytes, Some (Errno EINVAL))).
Proof.
  destruct (cluster_identity_empty Sim.env "vol"%string "masters"%string
              Scenario.twoCorrupt Sim.client eq_refl) as (Hc & _ & _ & Hr).
  split; [exact Hc |].
  apply (Hr "c/vol/7/1/1/2"%string Scenario.twoCorrupt).
  vm_compute. discriminate.
Defined.

(** A tuple and its key; a string with three fields. *)
Lemma key_round_trip_witness :
  KeyCodec.ParseKey (KeyCodec.GenKey "c" "vol" 7 12 0 99)
  = ({| Blob.key_cluster := "c"; Blob.key_volname := "vol";
        Blob.key_partitionID := 7; Blob.key_fileID := 12;
        Blob.key_objID := 0; Blob.key_size := 99 |}, None) /\
  KeyCodec.ParseKey "a/b/c" = (KeyCodec.zeroKeyFields, Some (Errno EINVAL)).
Proof.
  destruct (key_round_trip "c" "vol" 7 12 0 99 "a/b/c") as [Hrt Hbad].
  split.
  - apply Hrt. repeat split; try reflexivity; discriminate.
  - apply Hbad. intros (c & v & p & f & o & z & Hs & _). discriminate Hs.
Defined.

End Runs.
(** * More on the data node *)

Section MoreDataNodeFacts.

Variable defaultNodeTimeOutSec : Z.
Variable DefaultDataPartitionSize : Z.

Local Notation "'checkLiveness'" := (Master.checkLiveness defaultNodeTimeOutSec).
Local Notation "'call'" := (Master.call defaultNodeTimeOutSec).
Local Notation "'nodeTimeOut'" := (Master.nodeTimeOut defaultNodeTimeOutSec).
Local Notation "'isWriteAble'" := (Master.isWriteAble DefaultDataPartitionSize).

(** X1: [badPartitionIDs] returns the ids of exactly the reports filed
    under the disk asked for, as many as there are such reports and in the
    order of the report list; after a metric update the answer is drawn from
    the reports of that heartbeat alone. *)
Theorem badPartitionIDs_reports (disk : string) (n : Master.DataNode)
    (resp : Master.DataNodeHeartBeatResponse) (now : Time) (pid : Z) :
  (In pid (Master.badPartitionIDs disk n) <->
   exists r, In r (Master.dataPartitionReports n) /\
             Master.DiskPath r = disk /\ Master.PartitionID r = pid) /\
  (forall l1 l2,
     Master.dataPartitionReports n = l1 ++ l2 ->
     Master.badPartitionIDs disk n
     = map Master.PartitionID
           (filter (fun r => String.eqb (Master.DiskPath r) disk) l1)
       ++ map Master.PartitionID
              (filter (fun r => String.eqb (Master.DiskPath r) disk) l2)) /\
  (In pid (Master.badPartitionIDs disk (Master.updateNodeMetric resp now n)) <->
   exists r, In r (Master.resp_PartitionReports resp) /\
             Master.DiskPath r = disk /\ Master.PartitionID r = pid).
Proof.
  assert (Hmem : forall l,
             In pid (map Master.PartitionID
                       (filter (fun r => String.eqb (Master.DiskPath r) disk) l)) <->
             exists r, In r l /\ Master.DiskPath r = disk /\ Master.PartitionID r = pid).
  { intros l. rewrite in_map_iff. split.
    - intros (r & Hp & Hin). apply filter_In in Hin. destruct Hin as [Hin Hd].
      apply String.eqb_eq in Hd. exists r. auto.
    - intros (r & Hin & Hd & Hp). exists r. split; [exact Hp |].
      apply filter_In. split; [exact Hin | now apply String.eqb_eq]. }
  split; [apply Hmem |]. split; [| apply Hmem].
  intros l1 l2 E. unfold Master.badPartitionIDs.
  rewrite E, filter_app, map_app. reflexivity.
Qed.

(** X2: a heartbeat counts from the moment it is ingested and replaces the
    one before it: two metric updates in a row leave the node the second
    alone would leave, and with a timeout that fits a [Duration] a node is
    active after a liveness check exactly while the check comes no later
    than the timeout after its last metric update. *)
Theorem heartbeat_window (resp1 resp2 : Master.DataNodeHeartBeatResponse)
    (t1 t2 now : Time) (n : Master.DataNode) :
  Master.updateNodeMetric resp2 t2 (Master.updateNodeMetric resp1 t1 n)
  = Master.updateNodeMetric resp2 t2 n /\
  (0 <= nodeTimeOut < maxDuration ->
   (Master.isActive (checkLiveness now (Master.updateNodeMetric resp1 t1 n)) = true
    <-> now - t1 <= nodeTimeOut)).
Proof.
  split; [reflexivity |].
  intros Hfit. rewrite checkLiveness_isActive. cbn [Master.ReportTime Master.isActive Master.updateNodeMetric].
  pose proof (time_Since_exceeds defaultNodeTimeOutSec now t1 Hfit) as Hs.
  destruct (Z.ltb_spec nodeTimeOut (time_Since now t1)) as [Hlt | Hge].
  - split; [discriminate |]. intros H. apply Hs in Hlt. lia.
  - split; [| reflexivity]. intros _.
    destruct (Z.lt_ge_cases nodeTimeOut (now - t1)) as [H | H]; [| lia].
    apply Hs in H. lia.
Qed.

(** X3: write eligibility follows liveness and the reported free space: a
    node whose report is older than the timeout is not writable after the
    liveness check, whatever space it has; after a metric update it is
    writable exactly when the heartbeat reported more free space than the
    size of a partition; and a writable node is active. *)
Theorem isWriteAble_after (n : Master.DataNode)
    (resp : Master.DataNodeHeartBeatResponse) (now : Time) :
  (nodeTimeOut < time_Since now (Master.ReportTime n) ->
   isWriteAble (checkLiveness now n) = false) /\
  (isWriteAble (Master.updateNodeMetric resp now n) = true <->
   DefaultDataPartitionSize < Master.resp_Available resp) /\
  (isWriteAble n = true ->
   Master.isActive n = true /\ DefaultDataPartitionSize < Master.Available n).
Proof.
  split; [| split].
  - intros H. unfold Master.isWriteAble, Master.checkLiveness.
    apply Z.ltb_lt in H. rewrite H. reflexivity.
  - unfold Master.isWriteAble. cbn. apply Z.ltb_lt.
  - unfold Master.isWriteAble. intros H. apply andb_true_iff in H.
    destruct H as [Ha Hb]. apply Z.ltb_lt in Hb. auto.
Qed.

(** X4: what each method leaves alone.  The liveness check writes at most
    the activity flag; [SetCarry] writes only the carry; a selection leaves
    capacity, liveness and eligibility alone; a metric update leaves the
    identity and the scheduling weight alone.  So the carry changes only
    under [SetCarry] and a selection, the selection count only under a
    selection, and eligibility only under a liveness check or a metric
    update. *)
Theorem mutator_footprint (m : Master.mutator) (n : Master.DataNode) :
  (Master.ID (call m n) = Master.ID n /\
   Master.Addr (call m n) = Master.Addr n /\
   Master.Sender (call m n) = Master.Sender n /\
   Master.NodeSetID (call m n) = Master.NodeSetID n) /\
  (Master.Carry (call m n) <> Master.Carry n ->
   (exists carry, m = Master.Call_SetCarry carry) \/
   m = Master.Call_SelectNodeForWrite) /\
  (Master.SelectCount (call m n) <> Master.SelectCount n ->
   m = Master.Call_SelectNodeForWrite) /\
  (isWriteAble (call m n) <> isWriteAble n ->
   (exists now, m = Master.Call_checkLiveness now) \/
   (exists resp now, m = Master.Call_updateNodeMetric resp now)) /\
  (forall now,
     checkLiveness now n
     = Master.set_isActive (Master.isActive (checkLiveness now n)) n).
Proof.
  split; [| split; [| split; [| split]]].
  - destruct m as [now | resp now | carry |]; cbn; try (repeat split; reflexivity).
    unfold Master.checkLiveness.
    destruct (nodeTimeOut <? time_Since now (Master.ReportTime n));
      repeat split; reflexivity.
  - destruct m as [now | resp now | carry |]; cbn; intros H; eauto.
    + exfalso. apply H. unfold Master.checkLiveness.
      destruct (nodeTimeOut <? time_Since now (Master.ReportTime n)); reflexivity.
    + exfalso. apply H. reflexivity.
  - destruct m as [now | resp now | carry |]; cbn; intros H;
      try reflexivity; exfalso; apply H; try reflexivity.
    unfold Master.checkLiveness.
    destruct (nodeTimeOut <? time_Since now (Master.ReportTime n)); reflexivity.
  - destruct m as [now | resp now | carry |]; cbn; intros H; eauto;
      exfalso; apply H; reflexivity.
  - intros now. unfold Master.checkLiveness.
    destruct (nodeTimeOut <? time_Since now (Master.ReportTime n));
      [reflexivity |].
    destruct n; reflexivity.
Qed.


Lemma SFltb_not_SFleb (f g : spec_float) :
  SFltb f g = true -> SFleb g f = false.
Proof.
  unfold SFltb, SFleb.
  destruct f as [s | s | | s m e], g as [s' | s' | | s' m' e']; cbn;
    try discriminate; try reflexivity;
    try (destruct s; try discriminate; try reflexivity; fail);
    try (destruct s'; try discriminate; try reflexivity; fail);
    try (destruct s, s'; try discriminate; reflexivity).
  destruct s, s'; try discriminate; try reflexivity.
  - rewrite (Z.compare_antisym e e').
    destruct (e ?= e'); cbn; try discriminate; try reflexivity.
    rewrite !Pos.compare_cont_spec. cbn. rewrite (Pos.compare_antisym m m').
    destruct (m ?= m')%positive; cbn; try discriminate; reflexivity.
  - rewrite (Z.compare_antisym e e').
    destruct (e ?= e'); cbn; try discriminate; try reflexivity.
    rewrite !Pos.compare_cont_spec. cbn. rewrite (Pos.compare_antisym m m').
    destruct (m ?= m')%positive; cbn; try discriminate; reflexivity.
Qed.

(** X5: a node as [newDataNode] makes it, whatever the random
    carry and the address: it is not active and not writable; a carry below
    1, as [rand.Float64] draws it, does not make it ready for selection;
    a selection on it stores the ratio 0, its total being 1 and not 0; and
    it has no bad partition on any disk. *)
Theorem newDataNode_fresh (r : float) (addr cluster disk : string) :
  let n := Master.newDataNode r addr cluster in
  Master.isActive n = false /\
  isWriteAble n = false /\
  (PrimFloat.ltb r PrimFloat.one = true -> Master.isAvailCarryNode n = false) /\
  Master.Ratio (Master.SelectNodeForWrite n) = PrimFloat.zero /\
  Master.badPartitionIDs disk n = [].
Proof.
  cbv zeta. split; [reflexivity |]. split; [reflexivity |].
  split; [| split; [vm_compute; reflexivity | reflexivity]].
  unfold Master.isAvailCarryNode. cbn [Master.Carry Master.newDataNode].
  rewrite ltb_spec, leb_spec. apply SFltb_not_SFleb.
Qed.

End MoreDataNodeFacts.
(** * More on [Write] *)

Section MoreWriteFacts.

Context {W : Type}.
Variable env : Blob.Env W.
Variable client : Blob.BlobClient.

Lemma Write_body_paths_spec (request : Proto.Packet) (exclude : list Z) (w : W) :
  Write_body_paths env client request exclude
    (Blob.Write_body env client request exclude w).
Proof.
  unfold Write_body_paths, key_of_reply, exchange, discards.
  cbv beta iota zeta delta
    [Blob.Write_body Blob.bind Blob.ret Blob.lift Blob.deref Blob.index0
     Blob.call_GetWriteDataPartition Blob.call_Get Blob.call_Put
     Blob.call_CheckErrorForPutConnect Blob.call_WriteToConn
     Blob.call_ReadFromConn is_nil negb trace_of result_of fst snd app].
  split_answers; cbn; (split; [reflexivity |]); try exact I;
    try solve [repeat first [apply Forall_nil | apply Forall_cons; [reflexivity |]]].
  - eauto.
  - do 5 eexists. split; [eassumption |]. split; [reflexivity |].
    split; [assumption |].
    match goal with H : Blob.ParsePacket env _ = _ |- _ => rewrite H end.
    reflexivity.
Qed.

Lemma Write_loop_paths_spec (n : nat) (request : Proto.Packet) :
  forall (exclude : list Z) (w : W),
    Write_loop_paths env client request
      (Blob.Write_loop env n client request exclude w).
Proof.
  induction n as [| n IH]; intros exclude w.
  - unfold Write_loop_paths. cbn. split; [reflexivity |].
    split; [intros ex dp err [] | constructor].
  - cbn [Blob.Write_loop]. rewrite bind_run.
    pose proof (Write_body_spec env client request exclude w) as Hb.
    pose proof (Write_body_paths_spec request exclude w) as Hp.
    destruct (Blob.Write_body env client request exclude w) as [[t w1] out].
    destruct Hb as (w0 & dp & err & Hs & Hc & _ & _ & Hout).
    unfold Write_body_paths in Hp.
    unfold trace_of, result_of in Hc, Hout, Hp. cbn [fst snd] in *.
    destruct Hp as [Hfs Hp].
    destruct out as [[[key [e |]] | exclude'] |].
    + (* the locator failed *)
      destruct Hp as (dp' & err' & ->).
      destruct Hout as (_ & _ & -> & ->).
      unfold Write_loop_paths. cbn. split; [reflexivity |].
      split; [| constructor].
      intros ex dp0 err0 [[= <- <- <-] | []]. split; [reflexivity |].
      exists []. split; [reflexivity | constructor].
    + (* the write was acknowledged *)
      destruct Hp as (d & host & rest & conn & reply & Hh & -> & Hck & ->).
      cbn in Hc. injection Hc as <- <-.
      unfold Write_loop_paths. cbn [Blob.ret trace_of result_of fst snd].
      rewrite app_nil_r. split; [reflexivity |]. split.
      * cbn. intros ex dp0 err0 [[= _ _ E] | []].
      * exists [], exclude, d, host, rest, conn, reply.
        split; [exact Hh |]. split; [reflexivity |].
        split; [constructor |]. split; [exact Hck | reflexivity].
    + (* the turn failed *)
      destruct Hout as (-> & _ & d & -> & ->).
      specialize (IH (exclude ++ [Wrapper.PartitionID d]) w1).
      destruct (Blob.Write_loop env n client request
                  (exclude ++ [Wrapper.PartitionID d]) w1) as [[t' w2] out'].
      unfold Write_loop_paths in *. cbn [trace_of result_of fst snd] in *.
      destruct IH as (Hfs' & Herr & Hres).
      split; [rewrite checked_app, failed_sends_app, Hfs, Hfs'; reflexivity |].
      split.
      * rewrite sched_calls_app, Hc. intros ex dp0 err0 [[= _ _ E] | Hin].
        destruct (Herr _ _ _ Hin) as (-> & before & -> & Hall).
        split; [reflexivity |]. exists (t ++ before).
        rewrite app_assoc. split; [reflexivity |].
        rewrite sched_calls_app, Hc. constructor; [reflexivity | exact Hall].
      * destruct out' as [[key [e |]] |]; [| | exact I].
        -- rewrite released_app. apply Forall_app. split; assumption.
        -- destruct Hres as (before & ex & d' & host & rest & conn & reply
                             & Hh & -> & Hrel & Hck & ->).
           exists (t ++ before), ex, d', host, rest, conn, reply.
           rewrite app_assoc, released_app.
           split; [exact Hh |]. split; [reflexivity |].
           split; [apply Forall_app; split; assumption |].
           split; [exact Hck | reflexivity].
    + (* the turn panics *)
      destruct Hout as (-> & _).
      unfold Write_loop_paths. cbn [trace_of result_of fst snd].
      split; [exact Hfs |].
      split; [| exact I]. rewrite Hc. intros ex dp0 err0 [[= _ _ E] | []].
Qed.

Lemma Write_paths (data : bytes) (w : W) :
  match Blob.NewBlobWritePacket env None data w with
  | (_, Val request) =>
      Write_loop_paths env client request (Blob.Write env client data w)
  | (_, Panic) => result_of (Blob.Write env client data w) = Panic
  end.
Proof.
  rewrite Write_run.
  destruct (Blob.NewBlobWritePacket env None data w) as [w1 [request |]].
  - apply Write_loop_paths_spec.
  - reflexivity.
Qed.


(** X6: an error from the locator ends [Write] at once, whichever turn it
    comes in: the failed request is the last call of the run, nothing is
    dialled after it, the result is the empty key with ENOMEM, and no
    request before it had failed. *)
Theorem Write_stops_at_locator_error (data : bytes) (w : W)
    (ex : list Z) (dp : option Wrapper.DataPartition) (err : error) :
  In (ex, dp, Some err)
     (Blob.sched_calls (trace_of (Blob.Write env client data w))) ->
  result_of (Blob.Write env client data w)
  = Val (EmptyString, Some (Errno ENOMEM)) /\
  exists before,
    trace_of (Blob.Write env client data w)
    = before ++ [Blob.EvGetWriteDataPartition ex dp (Some err)] /\
    Forall (fun c => snd c = None) (Blob.sched_calls before).
Proof.
  pose proof (Write_paths data w) as H.
  destruct (Blob.NewBlobWritePacket env None data w) as [w1 [request |]] eqn:E.
  - intros Hin. apply (proj1 (proj2 H)). exact Hin.
  - rewrite Write_run, E. intros [].
Qed.

(** X7: [Write] returns a key only for a write that was acknowledged: the
    run ends with the exchange with the first host of the partition of the
    last turn, the reply passed [checkWriteResponse] against the request,
    and the key is made from the client's names and the fields of that
    reply. *)
Theorem Write_key_from_acknowledgement (data : bytes) (w : W) (key : string) :
  result_of (Blob.Write env client data w) = Val (key, None) ->
  exists w1 request before ex d host rest conn reply,
    Blob.NewBlobWritePacket env None data w = (w1, Val request) /\
    Wrapper.Hosts d = host :: rest /\
    trace_of (Blob.Write env client data w)
    = before ++ Blob.EvGetWriteDataPartition ex (Some d) None
             :: exchange host conn request reply /\
    write_acknowledged env request reply /\
    key = key_of_reply env client reply.
Proof.
  pose proof (Write_paths data w) as H.
  destruct (Blob.NewBlobWritePacket env None data w) as [w1 [request |]] eqn:E.
  - intros Hres. unfold Write_loop_paths in H. destruct H as (_ & _ & H).
    rewrite Hres in H.
    destruct H as (before & ex & d & host & rest & conn & reply
                   & Hh & Ht & _ & Hck & Hkey).
    exists w1, request, before, ex, d, host, rest, conn, reply.
    split; [reflexivity |]. split; [exact Hh |]. split; [exact Ht |].
    split; [| exact Hkey].
    apply (proj1 (checkWriteResponse_accepts env request reply) Hck).
  - rewrite H. discriminate.
Qed.

(** X8: how [Write] passes its connections back to the pool.  It calls
    [CheckErrorForPutConnect] after the sends that failed and only then,
    with the connection and the error of that send; unless it panics it
    passes back every connection it acquired, once and in the order it got
    them, by that call or by [Put]; every [Put] of a run that returns an
    error carries the discard tag; and a run that returns a key ends with
    the [Put] of the connection acquired last under the reuse tag, every
    [Put] before it carrying the discard tag. *)
Theorem Write_release_tags (data : bytes) (w : W) :
  let r := Blob.Write env client data w in
  Blob.checked (trace_of r) = Blob.failed_sends (trace_of r) /\
  (result_of r <> Panic ->
   Blob.handed_back (trace_of r) = Blob.acquired (trace_of r)) /\
  (forall key e,
     result_of r = Val (key, Some e) ->
     Forall discards (Blob.released (trace_of r))) /\
  (forall key,
     result_of r = Val (key, None) ->
     exists conns conn puts,
       Blob.acquired (trace_of r) = conns ++ [conn] /\
       Blob.released (trace_of r) = puts ++ [(conn, false)] /\
       Forall discards puts).
Proof.
  cbv zeta. pose proof (Write_paths data w) as H.
  split; [| split; [apply Write_releases |]].
  - destruct (Blob.NewBlobWritePacket env None data w) as [w1 [request |]] eqn:E.
    + apply H.
    + rewrite Write_run, E. reflexivity.
  - destruct (Blob.NewBlobWritePacket env None data w) as [w1 [request |]] eqn:E.
    + unfold Write_loop_paths in H. destruct H as (_ & _ & H). split.
      * intros key e Hres. rewrite Hres in H. exact H.
      * intros key Hres. rewrite Hres in H.
        destruct H as (before & ex & d & host & rest & conn & reply
                       & _ & Ht & Hrel & _ & _).
        exists (Blob.acquired before), conn, (Blob.released before). rewrite Ht.
        rewrite acquired_app, released_app.
        split; [reflexivity |]. split; [reflexivity | exact Hrel].
    + rewrite H. split; discriminate.
Qed.

End MoreWriteFacts.
(** * More on [Read] and [Delete] *)

Section MoreReadFacts.

Context {W : Type}.
Variable env : Blob.Env W.
Variable client : Blob.BlobClient.

Lemma dial_conns_app (t1 t2 : list Blob.event) :
  dial_conns (t1 ++ t2) = dial_conns t1 ++ dial_conns t2.
Proof. apply flat_map_app. Qed.

Lemma Read_body_paths_spec (request : Proto.Packet) (target : string) (w : W) :
  Read_body_paths (Blob.Read_body env request target w).
Proof.
  unfold Read_body_paths, discards.
  cbv beta iota zeta delta
    [Blob.Read_body Blob.bind Blob.ret Blob.lift
     Blob.call_Get Blob.call_Put
     Blob.call_CheckErrorForPutConnect Blob.call_WriteToConn
     Blob.call_ReadFromConn trace_of result_of fst snd app].
  split_answers; cbn; eexists;
    (split; [reflexivity |]); (split; [reflexivity |]);
    (split; [first [reflexivity | intros X; now contradiction X] |]);
    try exact I;
    try solve [repeat first [apply Forall_nil | apply Forall_cons; [reflexivity |]]].
  repeat split; reflexivity.
Qed.

Lemma Read_loop_paths_spec (request : Proto.Packet) (hosts : list string) :
  forall (err : option error) (w : W),
    Read_loop_paths (Blob.Read_loop env request hosts err w).
Proof.
  induction hosts as [| target rest IH]; intros err w.
  - unfold Read_loop_paths. cbn. split; [reflexivity |].
    split; [reflexivity | constructor].
  - cbn [Blob.Read_loop]. rewrite bind_run.
    pose proof (Read_body_paths_spec request target w) as Hb.
    destruct (Blob.Read_body env request target w) as [[t w1] out].
    destruct Hb as (conn & Hd & Hfs & Hhb & Hout).
    unfold trace_of, result_of in Hd, Hfs, Hhb, Hout. cbn [fst snd] in *.
    destruct out as [[[data e] | err'] |].
    + destruct Hout as (-> & Hrel & Hacq).
      unfold Read_loop_paths. cbn [Blob.ret trace_of result_of fst snd].
      rewrite app_nil_r, Hd, Hrel. split; [exact Hfs |].
      split; [intros _; apply Hhb; discriminate |].
      exists [], conn, []. split; [reflexivity |].
      split; [reflexivity | constructor].
    + specialize (IH err' w1).
      destruct (Blob.Read_loop env request rest err' w1) as [[t' w2] out'].
      unfold Read_loop_paths in *. cbn [trace_of result_of fst snd] in *.
      destruct IH as (Hfs' & Hhb' & IH).
      rewrite dial_conns_app, released_app, handed_back_app, checked_app,
        failed_sends_app, Hd, Hfs, Hfs'.
      split; [reflexivity |]. split.
      { intros Hp. rewrite Hhb by discriminate. rewrite (Hhb' Hp). reflexivity. }
      destruct out' as [[data [e |]] |]; [| | exact I].
      * apply Forall_app. split; assumption.
      * destruct IH as (conns & c & puts & -> & -> & Hputs).
        exists (conn :: conns), c, (Blob.released t ++ puts).
        split; [reflexivity |]. split; [now rewrite app_assoc |].
        apply Forall_app. split; assumption.
    + unfold Read_loop_paths. cbn [trace_of result_of fst snd].
      split; [exact Hfs |]. split; [intros X; now contradiction X | exact I].
Qed.


(** The three ways [Read] goes: the key is refused; the partition is not
    resolved; the hosts of the partition are tried. *)
Lemma Read_cases (key : string) (w : W) :
  (refused env client key /\
   Blob.Read env client key w = ([], w, Val (nil_bytes, Some (Errno EINVAL)))) \/
  (exists k w1 e,
     Blob.ParseKey env key = (k, None) /\
     Blob.GetDataPartition env (Blob.key_partitionID k) w = (w1, (None, e)) /\
     Blob.Read env client key w
     = ([Blob.EvGetDataPartition (Blob.key_partitionID k) None e], w1,
        Val (nil_bytes, e))) \/
  (exists k w1 w2 dp e0 request,
     Blob.ParseKey env key = (k, None) /\
     Blob.key_cluster k = Blob.cluster client /\
     Blob.key_volname k = Blob.volname client /\
     Blob.GetDataPartition env (Blob.key_partitionID k) w = (w1, (Some dp, e0)) /\
     Blob.NewBlobReadPacket env (Blob.key_partitionID k) (Blob.key_fileID k)
       (Blob.key_objID k) (Blob.key_size k) w1 = (w2, request) /\
     Blob.Read env client key w
     = match Blob.Read_loop env request (Wrapper.Hosts dp) e0 w2 with
       | (t, w3, out) =>
           (Blob.EvGetDataPartition (Blob.key_partitionID k) (Some dp) e0 :: t,
            w3, out)
       end).
Proof.
  destruct (Blob.ParseKey env key) as [k err] eqn:Hk.
  destruct (negb (is_nil err)
            || negb (strings_Compare (Blob.key_cluster k) (Blob.cluster client) =? 0)
            || negb (strings_Compare (Blob.key_volname k) (Blob.volname client) =? 0))
    eqn:E.
  - left.
    assert (Hr : refused env client key).
    { unfold refused. rewrite Hk. cbn [fst snd].
      destruct err as [e |]; [left; discriminate |].
      destruct (string_dec (Blob.key_cluster k) (Blob.cluster client)) as [Hc | Hc];
        [| right; left; exact Hc].
      destruct (string_dec (Blob.key_volname k) (Blob.volname client)) as [Hv | Hv];
        [| right; right; exact Hv].
      assert (X : negb (is_nil (@None error))
                  || negb (strings_Compare (Blob.key_cluster k) (Blob.cluster client) =? 0)
                  || negb (strings_Compare (Blob.key_volname k) (Blob.volname client) =? 0)
                  = false) by (apply key_check; auto).
      congruence. }
    split; [exact Hr | apply Read_refuses; exact Hr].
  - apply key_check in E. destruct E as (-> & Hc & Hv).
    destruct (Blob.GetDataPartition env (Blob.key_partitionID k) w)
      as [w1 [[dp |] e0]] eqn:Hdp.
    + right. right.
      destruct (Blob.NewBlobReadPacket env (Blob.key_partitionID k)
                  (Blob.key_fileID k) (Blob.key_objID k) (Blob.key_size k) w1)
        as [w2 request] eqn:Hrq.
      exists k, w1, w2, dp, e0, request.
      repeat split; try assumption.
      apply (Read_run env client key w w1 w2 k dp e0 request); assumption.
    + right. left. exists k, w1, e0. repeat split; try assumption.
      unfold Blob.Read. rewrite Hk.
      assert (X : negb (is_nil (@None error))
                  || negb (strings_Compare (Blob.key_cluster k) (Blob.cluster client) =? 0)
                  || negb (strings_Compare (Blob.key_volname k) (Blob.volname client) =? 0)
                  = false) by (apply key_check; auto).
      rewrite X. unfold Blob.bind, Blob.call_GetDataPartition, Blob.ret.
      rewrite Hdp. reflexivity.
Qed.


(** X9: how [Read] passes connections back to the pool.  It calls
    [CheckErrorForPutConnect] after the sends that failed and only then,
    with the connection and the error of that send; unless it panics it
    passes back, once each and in order, what every [Get] returned, by that
    call or by [Put], a failed [Get] included (whose connection was never
    acquired); every [Put] of a run that returns an error carries the
    discard tag; and a run that returns a payload from a host ends with the
    [Put] of the last connection under the reuse tag, every [Put] before it
    carrying the discard tag. *)
Theorem Read_hands_back_every_dial (key : string) (w : W) :
  let r := Blob.Read env client key w in
  Blob.checked (trace_of r) = Blob.failed_sends (trace_of r) /\
  (result_of r <> Panic ->
   Blob.handed_back (trace_of r) = dial_conns (trace_of r)) /\
  (forall data e,
     result_of r = Val (data, Some e) ->
     Forall discards (Blob.released (trace_of r))) /\
  (forall data,
     result_of r = Val (data, None) ->
     dial_conns (trace_of r) <> [] ->
     exists conns conn puts,
       dial_conns (trace_of r) = conns ++ [conn] /\
       Blob.released (trace_of r) = puts ++ [(conn, false)] /\
       Forall discards puts).
Proof.
  cbv zeta.
  destruct (Read_cases key w)
    as [[_ ->] | [(k & w1 & e & _ & _ & ->)
                 | (k & w1 & w2 & dp & e0 & request & _ & _ & _ & _ & _ & ->)]].
  - cbn. split; [reflexivity |]. split; [reflexivity |].
    split; [intros; constructor | discriminate].
  - cbn. split; [reflexivity |]. split; [reflexivity |].
    split; [intros; constructor |]. intros data _ H. contradiction.
  - pose proof (Read_loop_paths_spec request (Wrapper.Hosts dp) e0 w2) as H.
    destruct (Blob.Read_loop env request (Wrapper.Hosts dp) e0 w2) as [[t w3] out].
    unfold Read_loop_paths in H. cbn [trace_of result_of fst snd] in *.
    change (dial_conns (Blob.EvGetDataPartition (Blob.key_partitionID k) (Some dp) e0 :: t))
      with (dial_conns t).
    change (Blob.released (Blob.EvGetDataPartition (Blob.key_partitionID k) (Some dp) e0 :: t))
      with (Blob.released t).
    change (Blob.handed_back (Blob.EvGetDataPartition (Blob.key_partitionID k) (Some dp) e0 :: t))
      with (Blob.handed_back t).
    change (Blob.checked (Blob.EvGetDataPartition (Blob.key_partitionID k) (Some dp) e0 :: t))
      with (Blob.checked t).
    change (Blob.failed_sends (Blob.EvGetDataPartition (Blob.key_partitionID k) (Some dp) e0 :: t))
      with (Blob.failed_sends t).
    destruct H as (Hfs & Hhb & H).
    split; [exact Hfs |]. split; [exact Hhb |].
    destruct out as [[data [e |]] |].
    + split; [intros data' e' _; exact H | discriminate].
    + split; [discriminate |]. intros data' _ _. exact H.
    + split; discriminate.
Qed.

(** X10: what [Read] can return.  With an error there is never a payload,
    and the error is EINVAL (the key was refused, no call made), the answer
    of the locator (the partition was not resolved, no host dialled) or the
    bare EIO (no reply passed the check).  A payload comes without an error
    and is the data of a reply that was received and passed the check. *)
Theorem Read_results (key : string) (w : W) (data : bytes) (e : option error) :
  result_of (Blob.Read env client key w) = Val (data, e) ->
  (e <> None -> data = nil_bytes) /\
  ((e = Some (Errno EINVAL) /\ data = nil_bytes /\
    trace_of (Blob.Read env client key w) = []) \/
   (data = nil_bytes /\
    exists pid,
      trace_of (Blob.Read env client key w)
      = [Blob.EvGetDataPartition pid None e]) \/
   (e = Some (Errno EIO) /\ data = nil_bytes /\
    ~ reused (trace_of (Blob.Read env client key w))) \/
   (e = None /\
    exists request reply,
      In request (Blob.sent (trace_of (Blob.Read env client key w))) /\
      In reply (Blob.received (trace_of (Blob.Read env client key w))) /\
      read_validated env request reply /\
      data = Proto.Data reply)).
Proof.
  destruct (Read_cases key w)
    as [[_ ->] | [(k & w1 & e1 & _ & _ & ->)
                 | (k & w1 & w2 & dp & e0 & request & _ & _ & _ & _ & _ & ->)]].
  - cbn. intros [= <- <-]. split; [reflexivity |]. left. repeat split.
  - cbn. intros [= <- <-]. split; [reflexivity |]. right. left.
    split; [reflexivity |]. eexists. reflexivity.
  - pose proof (Read_loop_spec env request (Wrapper.Hosts dp) e0 w2) as H.
    destruct (Blob.Read_loop env request (Wrapper.Hosts dp) e0 w2) as [[t w3] out].
    unfold Read_loop_post in H. cbn [trace_of result_of fst snd] in *.
    destruct H as (_ & Hres & _). intros ->.
    destruct (Hres data e eq_refl)
      as [(-> & _ & n & host & conn & before & rs & reply
           & _ & _ & Ht & Hrec & _ & Hv & ->)
         | (-> & Hru & -> & _ & _)].
    + split; [intros X; contradiction |]. right. right. right.
      split; [reflexivity |]. exists request, reply.
      change (Blob.sent (Blob.EvGetDataPartition (Blob.key_partitionID k) (Some dp) e0 :: t))
        with (Blob.sent t).
      change (Blob.received (Blob.EvGetDataPartition (Blob.key_partitionID k) (Some dp) e0 :: t))
        with (Blob.received t).
      split.
      { rewrite Ht, sent_app. apply in_or_app. right. cbn. now left. }
      split; [rewrite Hrec; apply in_or_app; right; now left |].
      split; [exact Hv | reflexivity].
    + split; [reflexivity |]. right. right. left.
      repeat split. intros [c Hc]. apply Hru. exists c. exact Hc.
Qed.

(** X11: when the locator answers a lookup with the nil partition, [Read]
    and [Delete] stop after that one call and pass the locator's error on
    as it is; when that error is nil too, both return as a success that did
    nothing. *)
Theorem unresolved_passes_error_on (key : string) (w w1 : W)
    (k : Blob.KeyFields) (e : option error) :
  Blob.ParseKey env key = (k, None) ->
  Blob.key_cluster k = Blob.cluster client ->
  Blob.key_volname k = Blob.volname client ->
  Blob.GetDataPartition env (Blob.key_partitionID k) w = (w1, (None, e)) ->
  Blob.Read env client key w
  = ([Blob.EvGetDataPartition (Blob.key_partitionID k) None e], w1,
     Val (nil_bytes, e)) /\
  Blob.Delete env client key w
  = ([Blob.EvGetDataPartition (Blob.key_partitionID k) None e], w1, Val e).
Proof.
  intros Hk Hc Hv Hdp.
  assert (X : negb (is_nil (@None error))
              || negb (strings_Compare (Blob.key_cluster k) (Blob.cluster client) =? 0)
              || negb (strings_Compare (Blob.key_volname k) (Blob.volname client) =? 0)
              = false) by (apply key_check; auto).
  unfold Blob.Read, Blob.Delete. rewrite Hk, X.
  unfold Blob.bind, Blob.call_GetDataPartition, Blob.ret. rewrite Hdp.
  split; reflexivity.
Qed.

End MoreReadFacts.
Section MoreDeleteFacts.

Context {W : Type}.
Variable env : Blob.Env W.
Variable client : Blob.BlobClient.

(** Runs [Delete] through every answer of the environment. *)
Ltac run_Delete :=
  cbv beta iota zeta delta
    [Blob.Delete Blob.bind Blob.ret Blob.lift Blob.index0
     Blob.call_GetDataPartition Blob.call_NewBlobDeletePacket Blob.call_Get
     Blob.call_Put Blob.call_CheckErrorForPutConnect Blob.call_WriteToConn
     Blob.call_ReadFromConn trace_of result_of fst snd app];
  split_answers; cbn.

(** X12: [Delete] makes a single attempt: at most one lookup, one dial,
    one request sent and one reply read, and the host it dials is the
    first host of the partition the lookup returned. *)
Theorem Delete_single_attempt (key : string) (w : W) :
  let t := trace_of (Blob.Delete env client key w) in
  (List.length (lookups t) <= 1)%nat /\
  (List.length (Blob.dialled t) <= 1)%nat /\
  (List.length (Blob.sent t) <= 1)%nat /\
  (List.length (Blob.received t) <= 1)%nat /\
  (forall host,
     In host (Blob.dialled t) ->
     exists pid d e rest,
       lookups t = [(pid, Some d, e)] /\ Wrapper.Hosts d = host :: rest).
Proof.
  cbv zeta. run_Delete.
  all: split; [lia |]; split; [lia |]; split; [lia |]; split; [lia |];
    intros host Hin;
    first [ contradiction
          | destruct Hin as [<- | []]; do 4 eexists;
            split; [reflexivity | eassumption] ].
Qed.


(** X13: [Delete] checks the opcode of the reply and nothing else: once
    the request is out and a reply with the success opcode is in, whatever
    its request id, partition id and checksum, the connection goes back for
    reuse and [Delete] returns no error. *)
Theorem Delete_accepts_success_opcode (key : string) (w w1 w2 w3 w4 w5 : W)
    (k : Blob.KeyFields) (dp : Wrapper.DataPartition) (e0 : option error)
    (request reply : Proto.Packet) (host : string) (rest : list string)
    (conn : option Blob.Conn) :
  Blob.ParseKey env key = (k, None) ->
  Blob.key_cluster k = Blob.cluster client ->
  Blob.key_volname k = Blob.volname client ->
  Blob.GetDataPartition env (Blob.key_partitionID k) w = (w1, (Some dp, e0)) ->
  Blob.NewBlobDeletePacket env dp (Blob.key_fileID k) (Blob.key_objID k) w1
  = (w2, request) ->
  Wrapper.Hosts dp = host :: rest ->
  Blob.conns_Get env host w2 = (w3, (conn, None)) ->
  Blob.WriteToConn env request conn w3 = (w4, None) ->
  Blob.ReadFromConn env conn w4 = (w5, (reply, None)) ->
  Proto.Opcode reply = Blob.OpOk env ->
  Blob.Delete env client key w
  = (Blob.EvGetDataPartition (Blob.key_partitionID k) (Some dp) e0
     :: exchange host conn request reply,
     Blob.conns_Put env conn false w5, Val None).
Proof.
  intros Hk Hc Hv Hdp Hrq Hh Hget Hwr Hrd Hop.
  unfold Blob.Delete. rewrite Hk.
  assert (E : negb (is_nil (@None error))
              || negb (strings_Compare (Blob.key_cluster k) (Blob.cluster client) =? 0)
              || negb (strings_Compare (Blob.key_volname k) (Blob.volname client) =? 0)
              = false) by (apply key_check; auto).
  rewrite E.
  apply Z.eqb_eq in Hop.
  cbv beta iota zeta delta
    [Blob.bind Blob.ret Blob.lift Blob.index0 Blob.call_GetDataPartition
     Blob.call_NewBlobDeletePacket Blob.call_Get Blob.call_WriteToConn
     Blob.call_ReadFromConn Blob.call_Put].
  rewrite Hdp, Hrq, Hh, Hget, Hwr, Hrd, Hop. reflexivity.
Qed.


Lemma slice_to_panics (s : bytes) (n : Z) :
  slice_to s n = Panic -> ~ 0 <= n <= Z.of_nat (cap s).
Proof.
  intros H Hs. destruct (slice_to_sized s n Hs) as [t E]. congruence.
Qed.

(** X15: no failure of the pool, the transport or the peer makes the
    client panic.  [Write] panics only when the packet constructor does,
    when the locator hands out no partition and no error, or a partition
    without hosts, or when a packet claims a size beyond its data; [Read]
    only on a reply that claims a size beyond its data; [Delete] only on a
    partition without hosts or such a reply. *)
Theorem panics_only_on_malformed_answers (data : bytes) (key : string) (w : W) :
  (result_of (Blob.Write env client data w) = Panic ->
   let t := trace_of (Blob.Write env client data w) in
   snd (Blob.NewBlobWritePacket env None data w) = Panic \/
   (exists ex, In (ex, None, None) (Blob.sched_calls t)) \/
   (exists ex d, In (ex, Some d, None) (Blob.sched_calls t) /\
                 Wrapper.Hosts d = []) \/
   (exists request reply,
      snd (Blob.NewBlobWritePacket env None data w) = Val request /\
      In reply (Blob.received t) /\
      ~ (sized request /\ sized reply))) /\
  (result_of (Blob.Read env client key w) = Panic ->
   exists reply,
     In reply (Blob.received (trace_of (Blob.Read env client key w))) /\
     ~ sized reply) /\
  (result_of (Blob.Delete env client key w) = Panic ->
   let t := trace_of (Blob.Delete env client key w) in
   (exists pid d e, lookups t = [(pid, Some d, e)] /\ Wrapper.Hosts d = []) \/
   (exists reply, Blob.received t = [reply] /\ ~ sized reply)).
Proof.
  split; [| split].
  - cbv zeta. rewrite Write_run.
    destruct (Blob.NewBlobWritePacket env None data w) as [w1 [request |]];
      [| intros _; left; reflexivity].
    pose proof (Write_loop_spec env client Blob.MaxRetryCnt request [] w1) as H.
    destruct (Blob.Write_loop env Blob.MaxRetryCnt client request [] w1)
      as [[t w2] out].
    unfold Write_loop_post in H. cbv zeta in H.
    cbn [trace_of result_of fst snd] in *.
    intros Hp. destruct H as (_ & _ & _ & _ & _ & _ & _ & Hpanic).
    destruct (Hpanic Hp) as [_ [Hc | [Hc | (reply & Hin & Hck)]]].
    + right. left. exact Hc.
    + right. right. left. exact Hc.
    + right. right. right. exists request, reply.
      split; [reflexivity |]. split; [exact Hin |].
      intros [Hq Hs].
      destruct (checkWriteResponse_total env request reply Hq Hs)
        as [E | (f & a & E)]; congruence.
  - destruct (Read_cases env client key w)
      as [[_ ->] | [(k & w1 & e & _ & _ & ->)
                   | (k & w1 & w2 & dp & e0 & request & _ & _ & _ & _ & _ & ->)]];
      try discriminate.
    pose proof (Read_loop_spec env request (Wrapper.Hosts dp) e0 w2) as H.
    destruct (Blob.Read_loop env request (Wrapper.Hosts dp) e0 w2) as [[t w3] out].
    unfold Read_loop_post in H. cbn [trace_of result_of fst snd] in *.
    intros Hp. destruct H as (_ & _ & Hpanic).
    destruct (Hpanic Hp) as (reply & Hin & Hck).
    exists reply. split; [exact Hin |]. intros Hs.
    destruct (checkReadResponse_total env request reply Hs)
      as [E | (f & a & E)]; congruence.
  - cbv zeta. run_Delete; intros H; try discriminate.
    all: first [ left; do 3 eexists; split; [reflexivity | assumption]
               | right; eexists; split; [reflexivity |];
                 eapply slice_to_panics; eassumption ].
Qed.

(** X16: a partition without hosts.  [Read] dials nothing and returns EIO;
    [Delete] panics on the index of the first host, after the lookup;
    [Write] panics on it after the first request to the locator. *)
Theorem partition_without_hosts (key : string) (data : bytes) (w w1 w2 : W)
    (k : Blob.KeyFields) (dp : Wrapper.DataPartition) (e0 : option error)
    (request : Proto.Packet) :
  Wrapper.Hosts dp = [] ->
  (Blob.ParseKey env key = (k, None) ->
   Blob.key_cluster k = Blob.cluster client ->
   Blob.key_volname k = Blob.volname client ->
   Blob.GetDataPartition env (Blob.key_partitionID k) w = (w1, (Some dp, e0)) ->
   (Blob.NewBlobReadPacket env (Blob.key_partitionID k) (Blob.key_fileID k)
      (Blob.key_objID k) (Blob.key_size k) w1 = (w2, request) ->
    Blob.Read env client key w
    = ([Blob.EvGetDataPartition (Blob.key_partitionID k) (Some dp) e0], w2,
       Val (nil_bytes, Some (Errno EIO)))) /\
   (Blob.NewBlobDeletePacket env dp (Blob.key_fileID k) (Blob.key_objID k) w1
    = (w2, request) ->
    Blob.Delete env client key w
    = ([Blob.EvGetDataPartition (Blob.key_partitionID k) (Some dp) e0], w2,
       Panic))) /\
  (Blob.NewBlobWritePacket env None data w = (w1, Val request) ->
   Blob.GetWriteDataPartition env [] w1 = (w2, (Some dp, None)) ->
   Blob.Write env client data w
   = ([Blob.EvGetWriteDataPartition [] (Some dp) None], w2, Panic)).
Proof.
  intros Hh. split.
  - intros Hk Hc Hv Hdp.
    assert (E : negb (is_nil (@None error))
                || negb (strings_Compare (Blob.key_cluster k) (Blob.cluster client) =? 0)
                || negb (strings_Compare (Blob.key_volname k) (Blob.volname client) =? 0)
                = false) by (apply key_check; auto).
    split; intros Hrq.
    + rewrite (Read_run env client key w w1 w2 k dp e0 request Hk Hc Hv Hdp Hrq).
      rewrite Hh. reflexivity.
    + unfold Blob.Delete. rewrite Hk, E.
      cbv beta iota zeta delta
        [Blob.bind Blob.ret Blob.lift Blob.index0 Blob.call_GetDataPartition
         Blob.call_NewBlobDeletePacket].
      rewrite Hdp, Hrq, Hh. reflexivity.
  - intros Hrq Hs. rewrite Write_run, Hrq.
    cbv beta iota zeta delta
      [Blob.MaxRetryCnt Blob.Write_loop Blob.Write_body Blob.bind Blob.ret
       Blob.lift Blob.deref Blob.index0 Blob.call_GetWriteDataPartition
       is_nil negb].
    rewrite Hs, Hh. reflexivity.
Qed.

(** X17: the test on the key is the gate to the network.  A key that is
    refused costs no call: [Read] and [Delete] return EINVAL and leave the
    world as it was.  A key that is not refused parses without an error,
    and both begin by looking up the partition id it carries. *)
Theorem key_gate (key : string) (w : W) :
  (refused env client key ->
   Blob.Read env client key w = ([], w, Val (nil_bytes, Some (Errno EINVAL))) /\
   Blob.Delete env client key w = ([], w, Val (Some (Errno EINVAL)))) /\
  (~ refused env client key ->
   exists k dp e,
     Blob.ParseKey env key = (k, None) /\
     hd_error (trace_of (Blob.Read env client key w))
     = Some (Blob.EvGetDataPartition (Blob.key_partitionID k) dp e) /\
     hd_error (trace_of (Blob.Delete env client key w))
     = Some (Blob.EvGetDataPartition (Blob.key_partitionID k) dp e)).
Proof.
  split.
  - intros H. split; [apply Read_refuses | apply Delete_refuses]; exact H.
  - intros Hn. unfold refused in Hn.
    destruct (Blob.ParseKey env key) as [k err] eqn:Hk. cbn [fst snd] in Hn.
    assert (He : err = None).
    { destruct err; [exfalso; apply Hn; left; discriminate | reflexivity]. }
    subst err.
    assert (Hc : Blob.key_cluster k = Blob.cluster client).
    { destruct (string_dec (Blob.key_cluster k) (Blob.cluster client));
        [assumption | exfalso; apply Hn; right; left; assumption]. }
    assert (Hv : Blob.key_volname k = Blob.volname client).
    { destruct (string_dec (Blob.key_volname k) (Blob.volname client));
        [assumption | exfalso; apply Hn; right; right; assumption]. }
    assert (E : negb (is_nil (@None error))
                || negb (strings_Compare (Blob.key_cluster k) (Blob.cluster client) =? 0)
                || negb (strings_Compare (Blob.key_volname k) (Blob.volname client) =? 0)
                = false) by (apply key_check; auto).
    destruct (Blob.GetDataPartition env (Blob.key_partitionID k) w)
      as [w1 [dp e]] eqn:Hdp.
    exists k, dp, e. split; [reflexivity |].
    unfold Blob.Read, Blob.Delete. rewrite Hk, E, !bind_run.
    unfold Blob.call_GetDataPartition. rewrite Hdp.
    split; reflexivity.
Qed.

End MoreDeleteFacts.

Section MoreResponseFacts.

Context {W : Type}.
Variable env : Blob.Env W.

(** X18: [checkReadResponse] returns no error exactly when the reply has
    the success opcode, the request's id and partition id, and the CRC-32
    of its own [Data[:Size]] as its [Crc]; every other reply whose size
    lies within its data gets an error; and of the request only the two
    ids matter. *)
Theorem checkReadResponse_accepts_iff (request reply : Proto.Packet) :
  (Blob.checkReadResponse env request reply = Val None <->
   read_validated env request reply) /\
  (sized reply -> ~ read_validated env request reply ->
   exists format args,
     Blob.checkReadResponse env request reply = Val (Some (Errorf format args))) /\
  (forall request',
     Proto.ReqID request' = Proto.ReqID request ->
     Proto.PartitionID request' = Proto.PartitionID request ->
     (Blob.checkReadResponse env request' reply = Val None <->
      Blob.checkReadResponse env request reply = Val None)).
Proof.
  split; [apply checkReadResponse_accepts |]. split.
  - intros Hs Hno.
    destruct (checkReadResponse_total env request reply Hs) as [H | H].
    + apply checkReadResponse_accepts in H. contradiction.
    + exact H.
  - intros request' Hid Hpid.
    rewrite !checkReadResponse_accepts. unfold read_validated.
    rewrite Hid, Hpid. reflexivity.
Qed.

End MoreResponseFacts.
Section MoreRuns.

Import Scenario MoreScenario.

Local Open Scope string_scope.

(** Of the three reports two are filed under the disk "/d1". *)
Lemma badPartitionIDs_reports_witness :
  Master.badPartitionIDs "/d1" twoDisks = [3; 5]%Z /\
  In 5%Z (Master.badPartitionIDs "/d1" twoDisks).
Proof.
  split; [reflexivity |].
  apply (proj1 (badPartitionIDs_reports "/d1" twoDisks emptyReport 0%Z 5%Z)).
  exists {| Master.PartitionID := 5; Master.DiskPath := "/d1" |}.
  split; [right; right; left; reflexivity | split; reflexivity].
Defined.

(** With a timeout of 180 seconds, a node that reported at time 0 is
    active at a check 100 seconds later. *)
Lemma heartbeat_window_witness :
  Master.isActive
    (Master.checkLiveness 180 (100 * time_Second)%Z
       (Master.updateNodeMetric emptyReport 0%Z twoDisks)) = true.
Proof.
  apply (proj2 (heartbeat_window 180 emptyReport emptyReport 0 0
                  (100 * time_Second) twoDisks)).
  - vm_compute. split; [discriminate | reflexivity].
  - vm_compute. discriminate.
Defined.

(** The node with 60 bytes free is writable against a partition size of
    50, and not after a liveness check 200 seconds after its report. *)
Lemma isWriteAble_after_witness :
  Master.isWriteAble 50 twoDisks = true /\
  Master.isWriteAble 50
    (Master.checkLiveness 180 (200 * time_Second)%Z twoDisks) = false.
Proof.
  destruct (isWriteAble_after 180 50 twoDisks emptyReport (200 * time_Second))
    as (Hdead & _ & _).
  split; [reflexivity |]. apply Hdead. vm_compute. reflexivity.
Defined.

(** No partition at all: one request to the locator, then ENOMEM. *)
Lemma Write_stops_at_locator_error_witness :
  result_of (Blob.Write Sim.env Sim.client hi noPartition)
  = Val (EmptyString, Some (Errno ENOMEM)) /\
  trace_of (Blob.Write Sim.env Sim.client hi noPartition)
  = [Blob.EvGetWriteDataPartition [] None (Some (Foreign 1))].
Proof.
  destruct (Write_stops_at_locator_error Sim.env Sim.client hi noPartition
              [] None (Foreign 1)) as [Hres _].
  - vm_compute. left. reflexivity.
  - split; [exact Hres | vm_compute; reflexivity].
Defined.

(** The write is acknowledged at the first turn: the key is made from the
    reply. *)
Lemma Write_key_from_acknowledgement_witness :
  result_of (Blob.Write Sim.env Sim.client hi acknowledged)
  = Val ("/vol/0/1/1/0", None) /\
  exists reply,
    In reply (Blob.received (trace_of (Blob.Write Sim.env Sim.client hi acknowledged))) /\
    write_acknowledged Sim.env (Sim.nilRequest hi 0) reply.
Proof.
  assert (H : result_of (Blob.Write Sim.env Sim.client hi acknowledged)
              = Val ("/vol/0/1/1/0", None)) by (vm_compute; reflexivity).
  split; [exact H |].
  destruct (Write_key_from_acknowledgement Sim.env Sim.client hi acknowledged _ H)
    as (w1 & request & before & ex & d & host & rest & conn & reply
        & Hrq & _ & Ht & Hack & _).
  injection Hrq as _ <-.
  exists reply. split; [| exact Hack].
  rewrite Ht, received_app. apply in_or_app. right. cbn. now left.
Defined.

(** The send fails: the connection goes to [CheckErrorForPutConnect] with
    the error of the send, and no [Put] is made.  The acknowledged write
    ends with the one [Put], under the reuse tag. *)
Lemma Write_release_tags_witness :
  Blob.checked (trace_of (Blob.Write Sim.env Sim.client hi sendFails))
  = [(Some 1%nat, Foreign 4)] /\
  Blob.released (trace_of (Blob.Write Sim.env Sim.client hi sendFails)) = [] /\
  Blob.handed_back (trace_of (Blob.Write Sim.env Sim.client hi sendFails))
  = [Some 1%nat] /\
  Blob.released (trace_of (Blob.Write Sim.env Sim.client hi acknowledged))
  = [(Some 1%nat, false)].
Proof.
  destruct (Write_release_tags Sim.env Sim.client hi sendFails)
    as (Hfs & Hhb & _ & _).
  split; [rewrite Hfs; vm_compute; reflexivity |].
  split; [vm_compute; reflexivity |].
  split; [| vm_compute; reflexivity].
  rewrite Hhb; [vm_compute; reflexivity | vm_compute; discriminate].
Defined.

(** The replica cannot be dialled: nothing is acquired, and the nil
    connection the failed [Get] returned goes back by [Put] all the same.
    The send fails: the connection goes to [CheckErrorForPutConnect], and
    no [Put] is made. *)
Lemma Read_hands_back_every_dial_witness :
  Blob.acquired (trace_of (Blob.Read Sim.env Sim.client key7 replicaDown)) = [] /\
  Blob.handed_back (trace_of (Blob.Read Sim.env Sim.client key7 replicaDown))
  = [None] /\
  Blob.checked (trace_of (Blob.Read Sim.env Sim.client key7 sendFails))
  = [(Some 1%nat, Foreign 4)] /\
  Blob.released (trace_of (Blob.Read Sim.env Sim.client key7 sendFails)) = [].
Proof.
  split; [vm_compute; reflexivity |].
  split.
  - rewrite (proj1 (proj2 (Read_hands_back_every_dial Sim.env Sim.client key7
                             replicaDown)));
      [vm_compute; reflexivity | vm_compute; discriminate].
  - split; [| vm_compute; reflexivity].
    rewrite (proj1 (Read_hands_back_every_dial Sim.env Sim.client key7 sendFails)).
    vm_compute. reflexivity.
Defined.

(** The payload of the third replica comes without an error. *)
Lemma Read_results_witness :
  result_of (Blob.Read Sim.env Sim.client key7 twoCorrupt) = Val (hi, None) /\
  exists request reply,
    In request (Blob.sent (trace_of (Blob.Read Sim.env Sim.client key7 twoCorrupt))) /\
    In reply (Blob.received (trace_of (Blob.Read Sim.env Sim.client key7 twoCorrupt))) /\
    read_validated Sim.env request reply /\
    hi = Proto.Data reply.
Proof.
  assert (H : result_of (Blob.Read Sim.env Sim.client key7 twoCorrupt)
              = Val (hi, None)) by (vm_compute; reflexivity).
  split; [exact H |].
  destruct (Read_results Sim.env Sim.client key7 twoCorrupt hi None H)
    as [_ [(E & _) | [(_ & pid & E) | [(E & _) | (_ & Hp)]]]];
    [discriminate E | vm_compute in E; discriminate E | discriminate E | exact Hp].
Defined.

(** No partition 9: [Read] and [Delete] return the locator's error after
    the lookup. *)
Lemma unresolved_passes_error_on_witness :
  Blob.Read Sim.env Sim.client key9 replicaDown
  = ([Blob.EvGetDataPartition 9 None (Some (Foreign 2))], replicaDown,
     Val (nil_bytes, Some (Foreign 2))) /\
  Blob.Delete Sim.env Sim.client key9 replicaDown
  = ([Blob.EvGetDataPartition 9 None (Some (Foreign 2))], replicaDown,
     Val (Some (Foreign 2))).
Proof.
  apply (unresolved_passes_error_on Sim.env Sim.client key9 replicaDown
           replicaDown fields9 (Some (Foreign 2)));
    vm_compute; reflexivity.
Defined.

(** A reply that has the success opcode and another request id, partition
    id and checksum: the delete succeeds. *)
Lemma Delete_accepts_success_opcode_witness :
  result_of (Blob.Delete Sim.env Sim.client key7 deleteOddReply) = Val None /\
  Blob.released (trace_of (Blob.Delete Sim.env Sim.client key7 deleteOddReply))
  = [(Some 1%nat, false)] /\
  Blob.checkReadResponse Sim.env
    (snd (Sim.NewBlobDeletePacket dp7 1 1 deleteOddReply)) oddReply
  <> Val None.
Proof.
  rewrite (Delete_accepts_success_opcode Sim.env Sim.client key7 deleteOddReply
             deleteOddReply
             (fst (Sim.NewBlobDeletePacket dp7 1 1 deleteOddReply))
             (fst (Sim.conns_Get "h1" (fst (Sim.NewBlobDeletePacket dp7 1 1 deleteOddReply))))
             (fst (Sim.WriteToConn (snd (Sim.NewBlobDeletePacket dp7 1 1 deleteOddReply)) None
                     (fst (Sim.conns_Get "h1" (fst (Sim.NewBlobDeletePacket dp7 1 1 deleteOddReply))))))
             (fst (Sim.ReadFromConn None
                     (fst (Sim.WriteToConn (snd (Sim.NewBlobDeletePacket dp7 1 1 deleteOddReply)) None
                             (fst (Sim.conns_Get "h1" (fst (Sim.NewBlobDeletePacket dp7 1 1 deleteOddReply))))))))
             fields7 dp7 None
             (snd (Sim.NewBlobDeletePacket dp7 1 1 deleteOddReply)) oddReply
             "h1" [] (Some 1%nat));
    try (vm_compute; reflexivity).
  split; [reflexivity |]. split; [reflexivity |]. vm_compute. discriminate.
Defined.


(** The partition of the key has no host. *)
Lemma partition_without_hosts_witness :
  Blob.Read Sim.env Sim.client key7 noHosts
  = ([Blob.EvGetDataPartition 7 (Some dpNoHosts) None], Sim.bump noHosts,
     Val (nil_bytes, Some (Errno EIO))) /\
  result_of (Blob.Delete Sim.env Sim.client key7 noHosts) = Panic /\
  result_of (Blob.Write Sim.env Sim.client hi noHosts) = Panic.
Proof.
  destruct (partition_without_hosts Sim.env Sim.client key7 hi noHosts noHosts
              (Sim.bump noHosts) fields7 dpNoHosts None
              (snd (Sim.NewBlobReadPacket 7 1 1 2 noHosts)) eq_refl)
    as [Hrd _].
  destruct (Hrd eq_refl eq_refl eq_refl eq_refl) as [Hread _].
  split; [apply Hread; reflexivity |].
  split; vm_compute; reflexivity.
Defined.

(** A key of the cluster "c" is refused; the key of the client's own
    cluster is looked up. *)
Lemma key_gate_witness :
  Blob.Read Sim.env Sim.client "c/vol/7/1/1/2" twoCorrupt
  = ([], twoCorrupt, Val (nil_bytes, Some (Errno EINVAL))) /\
  Blob.Delete Sim.env Sim.client "c/vol/7/1/1/2" twoCorrupt
  = ([], twoCorrupt, Val (Some (Errno EINVAL))).
Proof.
  apply (proj1 (key_gate Sim.env Sim.client "c/vol/7/1/1/2" twoCorrupt)).
  right. left. vm_compute. discriminate.
Defined.

(** The reply with the checksum of its data passes, the one with the
    checksum 0 gets an error. *)
Lemma checkReadResponse_accepts_iff_witness :
  Blob.checkReadResponse Sim.env
    (snd (Sim.NewBlobReadPacket 7 1 1 2 twoCorrupt))
    (readReply (crc32_ChecksumIEEE (contents hi))) = Val None /\
  exists format args,
    Blob.checkReadResponse Sim.env
      (snd (Sim.NewBlobReadPacket 7 1 1 2 twoCorrupt)) (readReply 0)
    = Val (Some (Errorf format args)).
Proof.
  split.
  - apply (proj1 (checkReadResponse_accepts_iff Sim.env _ _)).
    repeat split. eexists. split; reflexivity.
  - apply (proj1 (proj2 (checkReadResponse_accepts_iff Sim.env _ _))).
    + split; vm_compute; discriminate.
    + intros (_ & _ & _ & p & Hp & Hc).
      injection Hp as <-. vm_compute in Hc. discriminate.
Defined.

End MoreRuns.
